(** * django-govbrds: settings cascade, renderer resolution, pagination

    A shallow embedding of [django_govbrds/core.py] and of
    [get_pagination_context] from
    [django_govbrds/templatetags/django_govbrds.py], with the properties
    of the settings cascade, of renderer resolution, of the pagination
    window and of the rebuilt pagination URL.

    Python values are modelled as follows: [int] as [Z]; a [float]
    that holds a whole number as the [Z] it is equal to; [str] as
    [string]; a dict used as a lookup table as [gmap]; a dict whose
    insertion order is observable (the query parameters, which are
    serialised in order) as an association list; [None]-able optional
    arguments as [option]; raised exceptions as the [Raise] case of
    [result]. *)

From Stdlib Require Import ZArith Lia Ascii String.
From stdpp Require Import base option list strings gmap pretty.

(** ** Python exceptions and results *)

Inductive exn : Type :=
  | ValueError (msg : string)
  | KeyError (key : string)
  | AttributeError (attr : string)
  | NameError (name : string)
  | ImportError (name : string)
  | OverflowError (msg : string).

Inductive result (A : Type) : Type :=
  | Ok (a : A)
  | Raise (e : exn).
Arguments Ok {A} a.
Arguments Raise {A} e.

#[global] Instance result_ret : MRet result := fun _ a => Ok a.
#[global] Instance result_bind : MBind result := fun _ _ k m =>
  match m with
  | Ok a => k a
  | Raise e => Raise e
  end.

Definition returns {A} (r : result A) : Prop := ∃ a, r = Ok a.

(** Truthiness of an optional string argument: [None] and the empty string
    are falsy, every other string is truthy. *)
Definition truthy (o : option string) : bool :=
  match o with
  | None | Some EmptyString => false
  | Some _ => true
  end.

(** [o or ''] for an optional string [o]. *)
Definition or_empty (o : option string) : string :=
  if truthy o then default EmptyString o else EmptyString.

(** [d[key]] on a dict: raises [KeyError] when the key is missing. *)
Definition subscript {V} (d : gmap string V) (key : string) : result V :=
  match d !! key with
  | Some v => Ok v
  | None => Raise (KeyError key)
  end.

(** [s.rsplit(".", 1)]: the split at the last dot, [None] standing for
    the one-element list returned when [s] holds no dot. *)
Fixpoint rsplit_dot (s : string) : option (string * string) :=
  match s with
  | EmptyString => None
  | String c s' =>
      match rsplit_dot s' with
      | Some (a, b) => Some (String c a, b)
      | None => if Ascii.eqb c "."%char then Some (EmptyString, s') else None
      end
  end.

(** ** core.py *)

Module Core.

(** The values found in the settings tables: [None], booleans, strings
    and dicts from strings to strings. *)
Inductive setting : Type :=
  | SNone
  | SBool (b : bool)
  | SStr (s : string)
  | SDict (d : gmap string string).

Definition GOVBRDS_DEFAULTS : gmap string setting :=
  list_to_map [
    ("css_url", SDict {[ "url" := "govbrds3/css/style.min.css" ]});
    ("javascript_url", SDict {[ "url" := "govbrds3/js/script.js" ]});
    ("theme_url", SNone);
    ("color_mode", SNone);
    ("javascript_in_head", SBool false);
    ("wrapper_class", SStr "mb-3");
    ("inline_wrapper_class", SStr EmptyString);
    ("horizontal_label_class", SStr "col-sm-2");
    ("horizontal_field_class", SStr "col-sm-10");
    ("horizontal_field_offset_class", SStr "offset-sm-2");
    ("set_placeholder", SBool true);
    ("checkbox_layout", SNone);
    ("checkbox_style", SNone);
    ("required_css_class", SStr EmptyString);
    ("error_css_class", SStr EmptyString);
    ("success_css_class", SStr EmptyString);
    ("server_side_validation", SBool true);
    ("formset_renderers",
       SDict {[ "default" := "django_govbrds.renderers.FormsetRenderer" ]});
    ("form_renderers",
       SDict {[ "default" := "django_govbrds.renderers.FormRenderer" ]});
    ("field_renderers",
       SDict {[ "default" := "django_govbrds.renderers.FieldRenderer" ]})
  ].

(** The Django settings object, as far as this module reads it: the
    attribute [GOVBRDS], which a project may leave undefined.  (The
    module-level dict of the same name in [core.py] is read by no
    function.) *)
Record django_settings : Type := {
  GOVBRDS : option (gmap string setting)
}.

(** [get_govbrds_setting(name, default=None)]; the keyword default is
    passed as [SNone]. *)
Definition get_govbrds_setting (settings : django_settings)
    (name : string) (dflt : setting) : setting :=
  let govbrds_settings := default ∅ (GOVBRDS settings) in
  default (default dflt (GOVBRDS_DEFAULTS !! name)) (govbrds_settings !! name).

Definition javascript_url (settings : django_settings) : setting :=
  get_govbrds_setting settings "javascript_url" SNone.

Definition css_url (settings : django_settings) : setting :=
  get_govbrds_setting settings "css_url" SNone.

Definition theme_url (settings : django_settings) : setting :=
  get_govbrds_setting settings "theme_url" SNone.

Section Renderers.
(** The renderer classes and [getattr(import_module(mod), cls)], which
    live outside this module. *)
Context {Renderer : Type}.
Variable import_attr : string → string → result Renderer.

(** [mod, cls = path.rsplit(".", 1)] followed by the import. *)
Definition load_path (path : string) : result Renderer :=
  match rsplit_dot path with
  | Some (mod_, cls) => import_attr mod_ cls
  | None =>
      Raise (ValueError "not enough values to unpack (expected 2, got 1)")
  end.

(** [get_renderer(renderers, **kwargs)].  The argument
    [renderers["default"]] of [.get] is evaluated before the lookup of
    [layout]. *)
Definition get_renderer (renderers : gmap string string)
    (kwargs : gmap string string) : result Renderer :=
  let layout := default EmptyString (kwargs !! "layout") in
  fallback ← subscript renderers "default";
  let path := default fallback (renderers !! layout) in
  load_path path.

(** A setting used as the [renderers] argument: only a dict has
    [.get] and [\[\]]. *)
Definition get_renderer_of (renderers : setting)
    (kwargs : gmap string string) : result Renderer :=
  match renderers with
  | SDict d => get_renderer d kwargs
  | SNone | SBool _ | SStr _ => Raise (AttributeError "get")
  end.

Definition get_formset_renderer (settings : django_settings)
    (kwargs : gmap string string) : result Renderer :=
  let renderers := get_govbrds_setting settings "formset_renderers" SNone in
  get_renderer_of renderers kwargs.

Definition get_form_renderer (settings : django_settings)
    (kwargs : gmap string string) : result Renderer :=
  let renderers := get_govbrds_setting settings "form_renderers" SNone in
  get_renderer_of renderers kwargs.

Definition get_field_renderer (settings : django_settings)
    (kwargs : gmap string string) : result Renderer :=
  let renderers := get_govbrds_setting settings "field_renderers" SNone in
  get_renderer_of renderers kwargs.
End Renderers.

End Core.

(** ** templatetags/django_govbrds.py: get_pagination_context *)

Module Pagination.

Local Open Scope Z_scope.

(** *** The URL library

    [urlparse], [urlunparse] and [parse_qs] come from [urllib.parse] and
    [urlencode] from [django.utils.http]; they are not code of this
    package.  Their string-level parts are taken as an interface:
    [urlparse] may raise (the library raises [ValueError] on a malformed
    bracketed host), the others are total on strings. *)

Record ParseResult : Type := {
  scheme : string;
  netloc : string;
  path : string;
  params : string;
  query : string;
  fragment : string
}.

Class UrlLib : Type := {
  urlparse : string → result ParseResult;
  urlunparse : ParseResult → string;
  (** [parse_qsl(qs)]: the decoded (name, value) pairs of a query
      string, in order, blank values dropped. *)
  parse_qsl : string → list (string * string);
  (** [quote_plus(s)]: percent-encoding of one name or value. *)
  quote_plus : string → string
}.

(** *** The query parameters: a dict from names to lists of values,
    which keeps the order in which its keys were inserted *)

Abbreviation qdict := (list (string * list string)).

Fixpoint dict_get (d : qdict) (k : string) : option (list string) :=
  match d with
  | [] => None
  | (k', v) :: d' => if decide (k' = k) then Some v else dict_get d' k
  end.

(** [d[k] = v]: an existing key keeps its place, a new key goes last. *)
Fixpoint dict_set (d : qdict) (k : string) (v : list string) : qdict :=
  match d with
  | [] => [(k, v)]
  | (k', v') :: d' =>
      if decide (k' = k) then (k', v) :: d' else (k', v') :: dict_set d' k v
  end.

(** [d.update(other)] *)
Definition dict_update (d other : qdict) : qdict :=
  foldl (λ acc kv, dict_set acc kv.1 kv.2) d other.

Definition dict_keys (d : qdict) : list string := d.*1.

Section WithUrlLib.
Context `{UrlLib}.

(** [parse_qs(qs)]: the pairs of [parse_qsl] collected per name,
    [parsed_result[name].append(value)] for a name seen before and
    [parsed_result[name] = [value]] for a new one. *)
Definition parse_qs (qs : string) : qdict :=
  foldl (λ parsed_result nv,
           match dict_get parsed_result nv.1 with
           | Some vs => dict_set parsed_result nv.1 (vs ++ [nv.2])
           | None => dict_set parsed_result nv.1 [nv.2]
           end)
        [] (parse_qsl qs).

(** [urlencode(params, doseq=True)] on a dict of lists of strings: one
    [name=value] item per value, joined by [&]. *)
Definition urlencode (d : qdict) : string :=
  String.concat "&"
    (flat_map (λ kv, (λ v, quote_plus kv.1 +:+ "=" +:+ quote_plus v) <$> kv.2) d).

(** *** The page object: [page.paginator.num_pages] and [page.number] *)

Record Page : Type := {
  paginator_num_pages : Z;
  number : Z
}.

(** The returned context. *)
Record pagination_context : Type := {
  govbrds_pagination_url : string;
  num_pages : Z;
  current_page : Z;
  first_page : Z;
  last_page : Z;
  pages_shown : list Z;
  pages_back : option Z;
  pages_forward : option Z;
  pagination_css_classes : string;
  parameter_name : string
}.

(** [range(a, b)] *)
Definition range (a b : Z) : list Z := seqZ a (b - a).

Definition pages_to_show_message (pages_to_show : Z) : string :=
  "Pagination pages_to_show should be a positive integer, you specified "
  +:+ pretty pages_to_show +:+ ".".

Definition justification_message (justify_content : string) : string :=
  "Invalid value '" +:+ justify_content +:+ "' for pagination justification."
  +:+ " Valid values are 'start', 'center', 'end'.".

(** *** The float step

    [pages_to_show / 2] is a true division of integers: the quotient
    is rounded to the nearest double (53 significant bits, ties to
    even), and the division raises [OverflowError] when the rounded
    quotient is 2^1024 or more.  Halving changes the exponent of a
    double only, so the quotient is half of [pages_to_show] rounded to
    53 significant bits. *)

(** A natural number rounded to 53 significant bits, ties to even. *)
Definition round53 (n : Z) : Z :=
  let e := Z.log2 n in
  if decide (e ≤ 52) then n
  else
    let s := e - 52 in
    let q := n `div` 2 ^ s in
    let r := n `mod` 2 ^ s in
    let half := 2 ^ (s - 1) in
    if (half <? r) || ((r =? half) && Z.odd q)
    then (q + 1) * 2 ^ s
    else q * 2 ^ s.

(** [int(floor(n / 2))]: the rounded quotient, then its floor as an
    integer. *)
Definition floor_half (n : Z) : result Z :=
  let m := round53 (Z.abs n) in
  if decide (2 ^ 1025 ≤ m)
  then Raise (OverflowError "integer division result too large for a float")
  else Ok ((Z.sgn n * m) `div` 2).

(** The page window: the statements after [delta_pages = ...], up to
    the loop that fills [pages_shown]. *)
Record window : Type := {
  w_first_page : Z;
  w_last_page : Z;
  w_pages_shown : list Z;
  w_pages_back : option Z;
  w_pages_forward : option Z
}.

Definition pagination_window
    (delta_pages pages_to_show num_pages current_page : Z) : window :=
  let first_page := 1 `max` (current_page - delta_pages) in
  let pages_back :=
    if decide (first_page > 1)
    then Some (1 `max` (first_page - delta_pages)) else None in
  let last_page := first_page + pages_to_show - 1 in
  let last_page :=
    if pages_back is None then last_page + 1 else last_page in
  let last_page :=
    if decide (last_page > num_pages) then num_pages else last_page in
  let '(pages_forward, first_page, pages_back) :=
    if decide (last_page < num_pages)
    then (Some ((last_page + delta_pages) `min` num_pages),
          first_page, pages_back)
    else
      let first_page :=
        if decide (first_page > 1) then first_page - 1 else first_page in
      let pages_back :=
        match pages_back with
        | Some b => if decide (b > 1) then Some (b - 1) else None
        | None => None
        end in
      (None, first_page, pages_back) in
  let pages_shown :=
    foldl (λ acc i, acc ++ [i]) [] (range first_page (last_page + 1)) in
  {| w_first_page := first_page;
     w_last_page := last_page;
     w_pages_shown := pages_shown;
     w_pages_back := pages_back;
     w_pages_forward := pages_forward |}.

(** The URL: the statements from [parts = urlparse(url or '')] to
    [url = urlunparse(...)]. *)
Definition merged_params (base_query : string) (extra : option string)
    : qdict :=
  let params := parse_qs base_query in
  if truthy extra
  then dict_update params (parse_qs (default EmptyString extra))
  else params.

Definition pagination_url (url extra : option string) : result string :=
  parts ← urlparse (or_empty url);
  let params := merged_params (query parts) extra in
  Ok (urlunparse {| scheme := scheme parts;
                    netloc := netloc parts;
                    path := path parts;
                    params := Pagination.params parts;
                    query := urlencode params;
                    fragment := fragment parts |}).

(** [get_size_class] is neither defined in the module nor imported
    into it: evaluating the name raises [NameError]. *)
Definition get_size_class (size prefix skip : string) : result string :=
  Raise (NameError "get_size_class").

(** The CSS classes: the statements from
    [pagination_css_classes = ["pagination"]] to the check of
    [justify_content]. *)
Definition pagination_classes (size justify_content : option string)
    : result (list string) :=
  let pagination_css_classes := ["pagination"] in
  pagination_css_classes ←
    match size with
    | Some sz =>
        if truthy size then
          pagination_size_class ← get_size_class sz "pagination" "md";
          Ok (if truthy (Some pagination_size_class)
              then pagination_css_classes ++ [pagination_size_class]
              else pagination_css_classes)
        else Ok pagination_css_classes
    | None => Ok pagination_css_classes
    end;
  match justify_content with
  | Some jc =>
      if truthy justify_content then
        if decide (jc ∈ ["start"; "center"; "end"])
        then Ok (pagination_css_classes ++ ["justify-content-" +:+ jc])
        else Raise (ValueError (justification_message jc))
      else Ok pagination_css_classes
  | None => Ok pagination_css_classes
  end.

Definition get_pagination_context (page : Page) (pages_to_show : Z)
    (url size justify_content extra : option string)
    (parameter_name : string) : result pagination_context :=
  if decide (pages_to_show < 1)
  then Raise (ValueError (pages_to_show_message pages_to_show))
  else
    let num_pages := paginator_num_pages page in
    let current_page := number page in
    delta_pages ← floor_half pages_to_show;
    let w :=
      pagination_window delta_pages pages_to_show num_pages current_page in
    url ← pagination_url url extra;
    pagination_css_classes ← pagination_classes size justify_content;
    Ok {| govbrds_pagination_url := url;
          num_pages := num_pages;
          current_page := current_page;
          first_page := w_first_page w;
          last_page := w_last_page w;
          pages_shown := w_pages_shown w;
          pages_back := w_pages_back w;
          pages_forward := w_pages_forward w;
          pagination_css_classes := String.concat " " pagination_css_classes;
          parameter_name := parameter_name |}.

(** The window carried by a returned context. *)
Definition context_window (ctx : pagination_context) : window :=
  {| w_first_page := first_page ctx;
     w_last_page := last_page ctx;
     w_pages_shown := pages_shown ctx;
     w_pages_back := pages_back ctx;
     w_pages_forward := pages_forward ctx |}.

(** [govbrds_pagination(page, **kwargs)] passes its arguments on. *)
Definition govbrds_pagination := get_pagination_context.

End WithUrlLib.

End Pagination.

(** ** The window algorithm as the specification words it

    [computeWindow], steps 1 to 7, written from the specification and
    compared with [Pagination.pagination_window] below. *)

Module Reference.

Local Open Scope Z_scope.

Record plan : Type := {
  firstPage : Z;
  lastPage : Z;
  pagesShown : list Z;
  backTarget : option Z;
  forwardTarget : option Z
}.

Definition computeWindow (windowSize totalPages currentPage : Z) : plan :=
  (* 1 *) let delta := windowSize `div` 2 in
  (* 2 *) let firstPage0 := Z.max 1 (currentPage - delta) in
  (* 3 *) let backTarget0 :=
            if bool_decide (firstPage0 > 1)
            then Some (Z.max 1 (firstPage0 - delta)) else None in
  (* 4 *) let lastPage0 :=
            firstPage0 + windowSize - 1
            + (if backTarget0 is None then 1 else 0) in
  (* 5 *) let lastPage1 := Z.min lastPage0 totalPages in
  (* 6 *) let forwardTarget1 :=
            if bool_decide (lastPage1 < totalPages)
            then Some (Z.min (lastPage1 + delta) totalPages) else None in
          let firstPage1 :=
            if bool_decide (lastPage1 < totalPages) then firstPage0
            else if bool_decide (firstPage0 > 1) then firstPage0 - 1
            else firstPage0 in
          let backTarget1 :=
            if bool_decide (lastPage1 < totalPages) then backTarget0
            else match backTarget0 with
                 | Some b => if bool_decide (b > 1) then Some (b - 1) else None
                 | None => None
                 end in
  (* 7 *) {| firstPage := firstPage1;
             lastPage := lastPage1;
             pagesShown := seqZ firstPage1 (lastPage1 - firstPage1 + 1);
             backTarget := backTarget1;
             forwardTarget := forwardTarget1 |}.

End Reference.

(** The window of the code, read as a plan of the specification. *)
Definition plan_of (w : Pagination.window) : Reference.plan :=
  {| Reference.firstPage := Pagination.w_first_page w;
     Reference.lastPage := Pagination.w_last_page w;
     Reference.pagesShown := Pagination.w_pages_shown w;
     Reference.backTarget := Pagination.w_pages_back w;
     Reference.forwardTarget := Pagination.w_pages_forward w |}.

(** ** An instance of the URL library

    An executable instance of [Pagination.UrlLib] for relative
    references over ASCII: a URL with neither scheme nor authority, the
    shape of the links a paginated view is given.  It follows
    [urllib.parse] there: the fragment is cut at the first [#], the
    query at the first [?], the path parameters at the first [;] of the
    last path segment; [parse_qsl] splits at [&] and at the first [=],
    drops items with a blank value and decodes [+] and [%XX];
    [quote_plus] keeps letters, digits and [_.-~], writes a space as [+]
    and any other byte as [%XX].  It differs from the library outside
    that range: leading blanks and control characters are not stripped,
    no scheme or authority is recognised (so no bracketed host is
    refused), and a decoded byte from [%80] on is kept as it is where
    the library decodes UTF-8. *)

Module RelativeUrls.

Import Pagination.

(** [s.partition(c)]: the text before the first [c], and the text after
    it when [c] occurs. *)
Fixpoint partition (c : ascii) (s : string) : string * option string :=
  match s with
  | EmptyString => (EmptyString, None)
  | String a s' =>
      if Ascii.eqb a c then (EmptyString, Some s')
      else let '(h, t) := partition c s' in (String a h, t)
  end.

(** [s.split(c)] *)
Fixpoint split (c : ascii) (s : string) : list string :=
  match s with
  | EmptyString => [EmptyString]
  | String a s' =>
      if Ascii.eqb a c then EmptyString :: split c s'
      else match split c s' with
           | h :: t => String a h :: t
           | [] => [String a EmptyString]
           end
  end.

(** The last path segment starts after the last [/]. *)
Fixpoint split_params (s : string) : string * string :=
  match s with
  | EmptyString => (EmptyString, EmptyString)
  | String a s' =>
      if existsb (Ascii.eqb "/"%char) (list_ascii_of_string s') then
        let '(p, q) := split_params s' in (String a p, q)
      else
        let '(p, q) := partition ";"%char (String a s') in
        (p, default EmptyString q)
  end.

Definition urlparse_rel (url : string) : result ParseResult :=
  let '(url, frag) := partition "#"%char url in
  let '(url, qry) := partition "?"%char url in
  let '(url, prm) := split_params url in
  Ok {| scheme := EmptyString;
        netloc := EmptyString;
        path := url;
        params := prm;
        query := default EmptyString qry;
        fragment := default EmptyString frag |}.

Definition nonempty (s : string) : bool :=
  match s with EmptyString => false | _ => true end.

(** [urlunparse]: scheme and authority are empty for a relative
    reference and add nothing. *)
Definition urlunparse_rel (parts : ParseResult) : string :=
  let url := path parts in
  let url := if nonempty (params parts)
             then url +:+ ";" +:+ params parts else url in
  let url := if nonempty (query parts)
             then url +:+ "?" +:+ query parts else url in
  if nonempty (fragment parts) then url +:+ "#" +:+ fragment parts else url.

Definition hex_value (c : ascii) : option N :=
  let n := N_of_ascii c in
  if (48 <=? n)%N && (n <=? 57)%N then Some (n - 48)%N
  else if (65 <=? n)%N && (n <=? 70)%N then Some (n - 55)%N
  else if (97 <=? n)%N && (n <=? 102)%N then Some (n - 87)%N
  else None.

Definition hex_digit (n : N) : ascii :=
  if (n <? 10)%N then ascii_of_N (48 + n) else ascii_of_N (55 + n).

(** [unquote(s.replace("+", " "))] *)
Fixpoint unquote_plus (s : string) : string :=
  match s with
  | EmptyString => EmptyString
  | String c s' =>
      if Ascii.eqb c "+"%char then String " "%char (unquote_plus s')
      else if Ascii.eqb c "%"%char then
        match s' with
        | String a (String b r) =>
            match hex_value a, hex_value b with
            | Some x, Some y =>
                String (ascii_of_N (16 * x + y)) (unquote_plus r)
            | _, _ => String c (unquote_plus s')
            end
        | _ => String c (unquote_plus s')
        end
      else String c (unquote_plus s')
  end.

Definition parse_qsl_rel (qs : string) : list (string * string) :=
  flat_map (λ name_value,
              match partition "="%char name_value with
              | (name, Some value) =>
                  if nonempty value
                  then [(unquote_plus name, unquote_plus value)] else []
              | (_, None) => []
              end)
           (split "&"%char qs).

Definition always_safe (c : ascii) : bool :=
  let n := N_of_ascii c in
  ((48 <=? n)%N && (n <=? 57)%N) || ((65 <=? n)%N && (n <=? 90)%N)
  || ((97 <=? n)%N && (n <=? 122)%N)
  || existsb (Ascii.eqb c) (list_ascii_of_string "_.-~").

Fixpoint quote_plus_rel (s : string) : string :=
  match s with
  | EmptyString => EmptyString
  | String c s' =>
      if always_safe c then String c (quote_plus_rel s')
      else if Ascii.eqb c " "%char then String "+"%char (quote_plus_rel s')
      else
        let n := N_of_ascii c in
        String "%"%char
          (String (hex_digit (n / 16)) (String (hex_digit (n mod 16))
             (quote_plus_rel s')))
  end.

#[export] Instance relative_urllib : UrlLib := {|
  urlparse := urlparse_rel;
  urlunparse := urlunparse_rel;
  parse_qsl := parse_qsl_rel;
  quote_plus := quote_plus_rel
|}.

End RelativeUrls.

(** ** templatetags/django_govbrds.py: the other tags *)

Module Tags.

Import Core.

(** The level constants of [django.contrib.messages]; Django defines
    them as 10, 20, 25, 30 and 40. *)
Class MessageConstants : Type := {
  DEBUG : Z;
  INFO : Z;
  SUCCESS : Z;
  WARNING : Z;
  ERROR : Z
}.

Definition django_message_constants : MessageConstants :=
  {| DEBUG := 10; INFO := 20; SUCCESS := 25; WARNING := 30; ERROR := 40 |}.

(** The dict display [MESSAGE_ALERT_TYPES]: the entries are stored in
    the order they are written, a later one replacing an earlier one
    with the same key. *)
Definition MESSAGE_ALERT_TYPES `{MessageConstants} : gmap Z string :=
  <[ ERROR := "danger" ]>
    (<[ WARNING := "warning" ]>
       (<[ SUCCESS := "success" ]>
          (<[ INFO := "info" ]>
             (<[ DEBUG := "warning" ]> ∅)))).

(** A message, as far as the filter reads it: the attribute [level],
    which the object may not have. *)
Record Message : Type := {
  level : option Z
}.

(** [govbrds_message_alert_type(message)]: both [AttributeError] and
    [KeyError] are caught and fall through to ["info"]. *)
Definition govbrds_message_alert_type `{MessageConstants}
    (message : Message) : string :=
  match level message with
  | None => "info"
  | Some level =>
      match MESSAGE_ALERT_TYPES !! level with
      | Some alert_type => alert_type
      | None => "info"
      end
  end.

(** [govbrds_setting(value)] *)
Definition govbrds_setting (settings : django_settings) (value : string)
    : setting :=
  get_govbrds_setting settings value SNone.

Definition govbrds_javascript_url (settings : django_settings) : setting :=
  javascript_url settings.

Definition govbrds_css_url (settings : django_settings) : setting :=
  css_url settings.

Definition govbrds_theme_url (settings : django_settings) : setting :=
  theme_url settings.

(** Truthiness of a setting: [None], [False], the empty string and the
    empty dict are falsy. *)
Definition setting_truthy (v : setting) : bool :=
  match v with
  | SNone => false
  | SBool b => b
  | SStr s => match s with EmptyString => false | _ => true end
  | SDict d => bool_decide (d ≠ ∅)
  end.

Section WithHelpers.
(** [render_link_tag] and [render_script_tag] of the package's [html]
    module and [_css_class_list] of its [css] module, which are imported
    by the tags and defined elsewhere. *)
Variable render_link_tag : setting → string.
Variable render_script_tag : setting → string.
Variable css_class_list : list string → result (list string).

(** [govbrds_css()]; [mark_safe] marks the string and leaves its text. *)
Definition govbrds_css (settings : django_settings) : string :=
  let rendered_urls := [] in
  let rendered_urls :=
    if setting_truthy (govbrds_css_url settings)
    then rendered_urls ++ [render_link_tag (govbrds_css_url settings)]
    else rendered_urls in
  let rendered_urls :=
    if setting_truthy (govbrds_theme_url settings)
    then rendered_urls ++ [render_link_tag (govbrds_theme_url settings)]
    else rendered_urls in
  String.concat EmptyString rendered_urls.

(** [govbrds_javascript()]; the tags are joined by a newline. *)
Definition govbrds_javascript (settings : django_settings) : string :=
  let javascript_tags := [] in
  let govbrds_js_url := govbrds_javascript_url settings in
  let javascript_tags :=
    if setting_truthy govbrds_js_url
    then javascript_tags ++ [render_script_tag govbrds_js_url]
    else javascript_tags in
  String.concat (String "010"%char EmptyString) javascript_tags.

(** [govbrds_server_side_validation_class(widget)]: a [KeyError] of
    [widget["attrs"]], of [...["class"]] or of the helper gives the
    empty string; any other exception of the helper is passed on. *)
Definition govbrds_server_side_validation_class
    (widget : gmap string (gmap string string)) : result string :=
  let attempt :=
    attrs ← subscript widget "attrs";
    class ← subscript attrs "class";
    css_class_list [class] in
  match attempt with
  | Raise (KeyError _) => Ok EmptyString
  | Raise e => Raise e
  | Ok css_classes =>
      Ok (String.concat " "
            (filter (λ css_class, css_class ∈ ["is-valid"; "is-invalid"])
               css_classes))
  end.

End WithHelpers.

End Tags.

(** * Properties *)

Import Core Pagination Reference.

Example rsplit_dot_ex :
  rsplit_dot "django_govbrds.renderers.FieldRenderer"
  = Some ("django_govbrds.renderers", "FieldRenderer").
Proof. reflexivity. Qed.

Example rsplit_dot_no_dot : rsplit_dot "FieldRenderer" = None.
Proof. reflexivity. Qed.

Example defaults_ex :
  GOVBRDS_DEFAULTS !! "wrapper_class" = Some (SStr "mb-3").
Proof. vm_compute. reflexivity. Qed.

(** ** The settings cascade *)

(** C7: [get_govbrds_setting] returns the value of the host settings
    table when the name is a key there, otherwise the value of
    [GOVBRDS_DEFAULTS] when the name is a key there, otherwise the given
    default; the function is total, so an unknown name raises nothing.
    The host table is empty when the settings object has no [GOVBRDS]
    attribute. *)
Theorem get_govbrds_setting_cascade
    (settings : django_settings) (name : string) (dflt : setting) :
  let host : gmap string setting := default ∅ (GOVBRDS settings) in
  (∀ v, host !! name = Some v →
        get_govbrds_setting settings name dflt = v)
  ∧ (∀ v, host !! name = None → GOVBRDS_DEFAULTS !! name = Some v →
          get_govbrds_setting settings name dflt = v)
  ∧ (host !! name = None → GOVBRDS_DEFAULTS !! name = None →
     get_govbrds_setting settings name dflt = dflt).
Proof.
  intros host. unfold get_govbrds_setting. fold host.
  split; [|split].
  - intros v Hv. by rewrite Hv.
  - intros v Hh Hd. by rewrite Hh, Hd.
  - intros Hh Hd. by rewrite Hh, Hd.
Qed.

(** A key that is present decides, whatever its value: a host value of
    [None] or of the empty string is returned as it is. *)
Lemma get_govbrds_setting_cascade_witness :
  get_govbrds_setting
    {| GOVBRDS := Some {[ "wrapper_class" := SStr EmptyString ]} |}
    "wrapper_class" (SStr "fallback") = SStr EmptyString
  ∧ get_govbrds_setting
      {| GOVBRDS := Some {[ "wrapper_class" := SStr EmptyString ]} |}
      "theme_url" (SStr "fallback") = SNone
  ∧ get_govbrds_setting {| GOVBRDS := None |} "no_such_setting"
      (SStr "fallback") = SStr "fallback".
Proof.
  split; [|split].
  - apply (proj1 (get_govbrds_setting_cascade
             {| GOVBRDS := Some {[ "wrapper_class" := SStr EmptyString ]} |}
             "wrapper_class" (SStr "fallback"))).
    vm_compute. reflexivity.
  - apply (proj1 (proj2 (get_govbrds_setting_cascade
             {| GOVBRDS := Some {[ "wrapper_class" := SStr EmptyString ]} |}
             "theme_url" (SStr "fallback")))).
    + vm_compute. reflexivity.
    + vm_compute. reflexivity.
  - apply (proj2 (proj2 (get_govbrds_setting_cascade
             {| GOVBRDS := None |} "no_such_setting" (SStr "fallback")))).
    + vm_compute. reflexivity.
    + vm_compute. reflexivity.
Defined.

(** ** Renderer resolution *)

Section RendererFacts.
Context {Renderer : Type} (import_attr : string → string → result Renderer).

Lemma get_renderer_of_dict (renderers : gmap string string)
    (kwargs : gmap string string) :
  get_renderer_of import_attr (SDict renderers) kwargs
  = get_renderer import_attr renderers kwargs.
Proof. reflexivity. Qed.

(** Without a ["default"] entry the lookup fails, also for a layout
    that is registered. *)
Lemma get_renderer_no_default (renderers kwargs : gmap string string) :
  renderers !! "default" = None →
  get_renderer import_attr renderers kwargs = Raise (KeyError "default").
Proof. intros Hd. unfold get_renderer, subscript. by rewrite Hd. Qed.

(** C6: for a variant map with a ["default"] entry, [get_renderer]
    loads the entry of the requested layout (the empty string when no
    layout is given) when the map has it, whatever the default entry
    is, and the ["default"] entry when the map has no such key; the
    three capability functions resolve their variant map from the
    settings and do the same. *)
Theorem get_renderer_selects
    (renderers kwargs : gmap string string) (fallback : string) :
  renderers !! "default" = Some fallback →
  let layout := default EmptyString (kwargs !! "layout") in
  (∀ p, renderers !! layout = Some p →
        get_renderer import_attr renderers kwargs
        = load_path import_attr p)
  ∧ (renderers !! layout = None →
     get_renderer import_attr renderers kwargs
     = load_path import_attr fallback)
  ∧ (∀ settings,
       get_govbrds_setting settings "form_renderers" SNone
       = SDict renderers →
       get_form_renderer import_attr settings kwargs
       = get_renderer import_attr renderers kwargs)
  ∧ (∀ settings,
       get_govbrds_setting settings "field_renderers" SNone
       = SDict renderers →
       get_field_renderer import_attr settings kwargs
       = get_renderer import_attr renderers kwargs)
  ∧ (∀ settings,
       get_govbrds_setting settings "formset_renderers" SNone
       = SDict renderers →
       get_formset_renderer import_attr settings kwargs
       = get_renderer import_attr renderers kwargs).
Proof.
  intros Hd layout.
  assert (Hsel : get_renderer import_attr renderers kwargs
                 = load_path import_attr
                     (default fallback (renderers !! layout))).
  { unfold get_renderer, subscript. rewrite Hd. reflexivity. }
  repeat split.
  - intros p Hp. rewrite Hsel, Hp. reflexivity.
  - intros Hn. rewrite Hsel, Hn. reflexivity.
  - intros settings Hs. unfold get_form_renderer. by rewrite Hs.
  - intros settings Hs. unfold get_field_renderer. by rewrite Hs.
  - intros settings Hs. unfold get_formset_renderer. by rewrite Hs.
Qed.
End RendererFacts.


(** Only a ["default"] entry registered for fields: the layout
    ["horizontal"] resolves to it; once ["horizontal"] is registered,
    it resolves to its own entry; no layout at all resolves to the
    default. *)
Lemma get_renderer_selects_witness :
  let import_attr := λ mod_ cls : string, Ok (mod_, cls) in
  let only_default : gmap string string :=
    {[ "default" := "django_govbrds.renderers.FieldRenderer" ]} in
  let both : gmap string string :=
    <[ "horizontal" := "app.renderers.HorizontalFieldRenderer" ]> only_default in
  get_renderer import_attr only_default {[ "layout" := "horizontal" ]}
  = Ok ("django_govbrds.renderers", "FieldRenderer")
  ∧ get_renderer import_attr both {[ "layout" := "horizontal" ]}
    = Ok ("app.renderers", "HorizontalFieldRenderer")
  ∧ get_field_renderer import_attr {| GOVBRDS := None |} ∅
    = Ok ("django_govbrds.renderers", "FieldRenderer").
Proof.
  intros import_attr only_default both.
  split; [|split].
  - destruct (get_renderer_selects import_attr only_default
                {[ "layout" := "horizontal" ]}
                "django_govbrds.renderers.FieldRenderer"
                ltac:(vm_compute; reflexivity)) as (_ & Hnone & _).
    rewrite Hnone by (vm_compute; reflexivity). reflexivity.
  - destruct (get_renderer_selects import_attr both
                {[ "layout" := "horizontal" ]}
                "django_govbrds.renderers.FieldRenderer"
                ltac:(vm_compute; reflexivity)) as (Hsome & _).
    rewrite (Hsome "app.renderers.HorizontalFieldRenderer")
      by (vm_compute; reflexivity).
    reflexivity.
  - destruct (get_renderer_selects import_attr only_default ∅
                "django_govbrds.renderers.FieldRenderer"
                ltac:(vm_compute; reflexivity))
      as (_ & Hnone & _ & Hfield & _).
    rewrite (Hfield {| GOVBRDS := None |}) by (vm_compute; reflexivity).
    rewrite Hnone by (vm_compute; reflexivity). reflexivity.
Defined.


(** ** The float step *)

Local Open Scope Z_scope.

Lemma round53_small (n : Z) : Z.log2 n ≤ 52 → round53 n = n.
Proof. intros Hn. unfold round53. by rewrite decide_True. Qed.

(** Beyond 53 bits the rounded value is a multiple of a power of two
    [P] next to [n]. *)
Lemma round53_large (n : Z) :
  52 < Z.log2 n →
  ∃ P, 2 ≤ P ∧ P * 2 ^ 52 ≤ n ∧ n - P < round53 n ≤ n + P.
Proof.
  intros He.
  assert (Hn : 0 < n).
  { destruct (decide (0 < n)) as [|Hneg]; [done|].
    rewrite Z.log2_nonpos in He by lia. lia. }
  destruct (Z.log2_spec n Hn) as [Hlo _].
  set (s := Z.log2 n - 52) in *.
  assert (HP : 2 ≤ 2 ^ s).
  { change 2 with (2 ^ 1) at 1. apply Z.pow_le_mono_r; lia. }
  assert (Hpow : 2 ^ s * 2 ^ 52 = 2 ^ Z.log2 n).
  { rewrite <- Z.pow_add_r by lia. f_equal. lia. }
  exists (2 ^ s). split; [done|]. split; [lia|].
  unfold round53. rewrite decide_False by lia. fold s. simpl.
  pose proof (Z.div_mod n (2 ^ s) ltac:(lia)) as Hdm.
  pose proof (Z.mod_pos_bound n (2 ^ s) ltac:(lia)) as Hr.
  destruct (_ || _); nia.
Qed.

Lemma floor_half_pos (n : Z) :
  1 ≤ n →
  floor_half n
  = if decide (2 ^ 1025 ≤ round53 n)
    then Raise (OverflowError "integer division result too large for a float")
    else Ok (round53 n `div` 2).
Proof.
  intros Hn. unfold floor_half.
  rewrite Z.abs_eq by lia. rewrite Z.sgn_pos by lia.
  by rewrite Z.mul_1_l.
Qed.

(** Up to 2^53 every integer is a double and the quotient is exact. *)
Lemma floor_half_exact (n : Z) :
  1 ≤ n ≤ 2 ^ 53 → floor_half n = Ok (n `div` 2).
Proof.
  intros Hn. destruct (decide (n = 2 ^ 53)) as [->|Hne].
  - vm_compute. reflexivity.
  - assert (Hlog : Z.log2 n < 53) by (apply Z.log2_lt_pow2; lia).
    rewrite floor_half_pos by lia. rewrite round53_small by lia.
    rewrite decide_False; [done|]. lia.
Qed.

(** Below 2^1024 the quotient fits a double. *)
Lemma floor_half_returns (n : Z) :
  1 ≤ n < 2 ^ 1024 → returns (floor_half n).
Proof.
  intros Hn. rewrite floor_half_pos by lia.
  rewrite decide_False; [by eexists|].
  destruct (decide (Z.log2 n ≤ 52)) as [Hs|Hl].
  - rewrite round53_small by done. lia.
  - destruct (round53_large n ltac:(lia)) as (P & HP & HPn & Hlo & Hhi). lia.
Qed.

(** The quotient the code goes on with lies between 0 and [n - 1], and
    is at least 1 from 2 on. *)
Lemma floor_half_bounds (n d : Z) :
  1 ≤ n → floor_half n = Ok d → 0 ≤ d ≤ n - 1 ∧ (2 ≤ n → 1 ≤ d).
Proof.
  intros Hn. rewrite floor_half_pos by lia. case_decide; [done|].
  intros [= <-]. destruct (decide (Z.log2 n ≤ 52)) as [Hs|Hl].
  - rewrite round53_small by done. Z.div_mod_to_equations. lia.
  - destruct (round53_large n ltac:(lia)) as (P & HP & HPn & Hlo & Hhi).
    Z.div_mod_to_equations. lia.
Qed.

Lemma floor_half_raises (n : Z) (e : exn) :
  floor_half n = Raise e →
  e = OverflowError "integer division result too large for a float".
Proof. unfold floor_half. case_decide; [|done]. by intros [= <-]. Qed.

(** ** The pagination window *)

(** The loop [for i in range(...): pages_shown.append(i)] copies the
    range. *)
Lemma foldl_append {A} (acc l : list A) :
  foldl (λ acc i, acc ++ [i]) acc l = acc ++ l.
Proof.
  revert acc. induction l as [|x l IH]; intros acc; simpl.
  - by rewrite app_nil_r.
  - rewrite IH. by rewrite <- app_assoc.
Qed.

Lemma window_pages_shown (delta pages_to_show num_pages current_page : Z) :
  let w := pagination_window delta pages_to_show num_pages current_page in
  w_pages_shown w = seqZ (w_first_page w) (w_last_page w - w_first_page w + 1).
Proof.
  unfold pagination_window. simpl.
  repeat case_decide; simpl; rewrite foldl_append; simpl; unfold range;
    f_equal; lia.
Qed.

Lemma div2_bounds (n : Z) : 1 ≤ n → 0 ≤ n `div` 2 ≤ n - 1.
Proof. intros Hn. Z.div_mod_to_equations. lia. Qed.

(** The window lies around the current page and inside the pages. *)
Lemma window_bounds (delta pages_to_show num_pages current_page : Z) :
  1 ≤ pages_to_show → 0 ≤ delta ≤ pages_to_show - 1 →
  1 ≤ current_page ≤ num_pages →
  let w := pagination_window delta pages_to_show num_pages current_page in
  1 ≤ w_first_page w ≤ current_page
  ∧ current_page ≤ w_last_page w ≤ num_pages.
Proof.
  intros Hws Hd Hcur. unfold pagination_window. simpl.
  repeat case_decide; simpl; lia.
Qed.

(** The window never holds more than [pages_to_show + 1] pages. *)
Lemma window_width (delta pages_to_show num_pages current_page : Z) :
  1 ≤ pages_to_show →
  let w := pagination_window delta pages_to_show num_pages current_page in
  w_last_page w - w_first_page w + 1 ≤ pages_to_show + 1.
Proof.
  intros Hws. unfold pagination_window. simpl.
  repeat case_decide; simpl; lia.
Qed.

(** The jump targets lie outside the window and inside the pages. *)
Lemma window_targets (delta pages_to_show num_pages current_page : Z) :
  0 ≤ delta →
  let w := pagination_window delta pages_to_show num_pages current_page in
  (∀ b, w_pages_back w = Some b → 1 ≤ b ≤ w_first_page w)
  ∧ (∀ f, w_pages_forward w = Some f → w_last_page w ≤ f ≤ num_pages).
Proof.
  intros Hd. unfold pagination_window. simpl.
  repeat case_decide; simpl; split; intros ? [=]; lia.
Qed.

(** No pages at all: an empty window without jump targets. *)
Lemma window_no_pages (delta pages_to_show : Z) :
  1 ≤ pages_to_show → 0 ≤ delta →
  let w := pagination_window delta pages_to_show 0 1 in
  w_pages_shown w = [] ∧ w_pages_back w = None ∧ w_pages_forward w = None.
Proof.
  intros Hws Hd. split.
  - rewrite window_pages_shown. unfold pagination_window. simpl.
    repeat case_decide; simpl; try lia.
    rewrite Z.max_l by lia. reflexivity.
  - unfold pagination_window. simpl.
    repeat case_decide; simpl; try lia; done.
Qed.

(** With the exact quotient, the window of the code is the window of
    the reference algorithm, for all integers. *)
Lemma window_reference (pages_to_show num_pages current_page : Z) :
  plan_of (pagination_window (pages_to_show `div` 2) pages_to_show
             num_pages current_page)
  = computeWindow pages_to_show num_pages current_page.
Proof.
  unfold plan_of. rewrite window_pages_shown.
  unfold pagination_window, computeWindow. simpl.
  repeat case_decide; repeat case_bool_decide; simpl;
    try lia; repeat f_equal; try lia.
Qed.

Lemma firstPage_plan_of (w : window) : firstPage (plan_of w) = w_first_page w.
Proof. reflexivity. Qed.

(** The first page of a window that stops short of both ends. *)
Lemma window_first_page_inside
    (delta pages_to_show num_pages current_page : Z) :
  1 < current_page - delta →
  current_page - delta + pages_to_show - 1 < num_pages →
  w_first_page
    (pagination_window delta pages_to_show num_pages current_page)
  = current_page - delta.
Proof.
  intros Hlo Hhi. unfold pagination_window. simpl.
  repeat case_decide; simpl; lia.
Qed.

(** ** The options of the pagination tag *)

Lemma returns_Ok {A} (a : A) : returns (Ok a).
Proof. by exists a. Qed.

(** The two messages differ, whatever they name. *)
Lemma messages_differ (justify_content : string) (n : Z) :
  justification_message justify_content ≠ pages_to_show_message n.
Proof. unfold justification_message, pages_to_show_message. discriminate. Qed.

(** The CSS classes when no size is given. *)
Lemma pagination_classes_no_size (size justify_content : option string) :
  truthy size = false →
  pagination_classes size justify_content
  = match justify_content with
    | Some jc =>
        if truthy justify_content then
          if decide (jc ∈ ["start"; "center"; "end"])
          then Ok ["pagination"; "justify-content-" +:+ jc]
          else Raise (ValueError (justification_message jc))
        else Ok ["pagination"]
    | None => Ok ["pagination"]
    end.
Proof.
  intros Hsize. unfold pagination_classes.
  destruct size as [sz|]; [rewrite Hsize|]; reflexivity.
Qed.

(** What the CSS step can raise. *)
Lemma pagination_classes_raises (size justify_content : option string)
    (e : exn) :
  pagination_classes size justify_content = Raise e →
  e = NameError "get_size_class"
  ∨ ∃ jc, justify_content = Some jc ∧ e = ValueError (justification_message jc).
Proof.
  unfold pagination_classes.
  destruct size as [sz|]; [destruct (truthy (Some sz))|]; simpl;
    try (intros [= <-]; by left);
    (destruct justify_content as [jc|]; [|done]);
    (destruct (truthy (Some jc)); [|done]);
    (case_decide; [done|]); intros [= <-]; right; by exists jc.
Qed.

Section PaginationFacts.
Context `{UrlLib}.

(** Past the check of [pages_to_show] and the float step, the call
    returns as soon as the URL and the CSS classes are built, with the
    window of the page. *)
Lemma get_pagination_context_returns (page : Page) (pages_to_show delta : Z)
    (url size justify_content extra : option string) (pname : string) :
  1 ≤ pages_to_show →
  floor_half pages_to_show = Ok delta →
  returns (pagination_url url extra) →
  returns (pagination_classes size justify_content) →
  ∃ ctx,
    get_pagination_context page pages_to_show url size justify_content
      extra pname = Ok ctx
    ∧ context_window ctx
      = pagination_window delta pages_to_show (paginator_num_pages page)
          (number page).
Proof.
  intros Hws Hd [u Hu] [cls Hcls]. unfold get_pagination_context.
  case_decide; [lia|]. rewrite Hd. simpl. rewrite Hu, Hcls. simpl.
  eexists. split; [reflexivity|]. unfold context_window. simpl.
  by destruct (pagination_window _ _ _ _).
Qed.

(** What a returned context holds. *)
Lemma get_pagination_context_Ok (page : Page) (pages_to_show : Z)
    (url size justify_content extra : option string) (pname : string)
    (ctx : pagination_context) :
  get_pagination_context page pages_to_show url size justify_content
    extra pname = Ok ctx →
  1 ≤ pages_to_show
  ∧ pagination_url url extra = Ok (govbrds_pagination_url ctx)
  ∧ (∃ cls, pagination_classes size justify_content = Ok cls
            ∧ pagination_css_classes ctx = String.concat " " cls)
  ∧ (∃ delta, floor_half pages_to_show = Ok delta
              ∧ context_window ctx
                = pagination_window delta pages_to_show
                    (paginator_num_pages page) (number page)).
Proof.
  unfold get_pagination_context. case_decide; [done|].
  destruct (floor_half pages_to_show) as [delta|] eqn:Hd; [|done]. simpl.
  destruct (pagination_url url extra) as [u|]; [|done].
  destruct (pagination_classes size justify_content) as [cls|]; [|done].
  simpl. intros [= <-]. simpl. split; [lia|]. split; [done|].
  split; [by exists cls|]. exists delta. split; [done|].
  unfold context_window. simpl. by destruct (pagination_window _ _ _ _).
Qed.

(** Below 2^1024 the call returns when the URL and the CSS classes are
    built. *)
Lemma get_pagination_context_float_range (page : Page) (pages_to_show : Z)
    (url size justify_content extra : option string) (pname : string) :
  1 ≤ pages_to_show < 2 ^ 1024 →
  returns (pagination_url url extra) →
  returns (pagination_classes size justify_content) →
  returns (get_pagination_context page pages_to_show url size
             justify_content extra pname).
Proof.
  intros Hws Hu Hc.
  destruct (floor_half_returns pages_to_show Hws) as [delta Hd].
  destruct (get_pagination_context_returns page pages_to_show delta url size
              justify_content extra pname ltac:(lia) Hd Hu Hc)
    as (ctx & Hctx & _).
  by exists ctx.
Qed.

(** C1, amended: for a window size from 1 to 2^53, where the float
    quotient [pages_to_show / 2] is exact, [get_pagination_context]
    returns (given a URL that parses and acceptable CSS options) a
    context whose first page, last page, shown pages, back target and
    forward target are those of the reference algorithm
    [computeWindow]; for 100 pages, current page 50 and window size
    11 they are 45, 55, 40 and 60. *)
Theorem get_pagination_context_reference :
  (∀ (pages_to_show total current : Z)
     (url size justify_content extra : option string) (pname : string),
     1 ≤ pages_to_show ≤ 2 ^ 53 →
     0 ≤ total → 1 ≤ current ≤ Z.max total 1 →
     returns (pagination_url url extra) →
     returns (pagination_classes size justify_content) →
     ∃ ctx,
       get_pagination_context
         {| paginator_num_pages := total; number := current |}
         pages_to_show url size justify_content extra pname = Ok ctx
       ∧ plan_of (context_window ctx)
         = computeWindow pages_to_show total current)
  ∧ (∀ (url size justify_content extra : option string) (pname : string),
       returns (pagination_url url extra) →
       returns (pagination_classes size justify_content) →
       ∃ ctx,
         get_pagination_context
           {| paginator_num_pages := 100; number := 50 |}
           11 url size justify_content extra pname = Ok ctx
         ∧ first_page ctx = 45 ∧ last_page ctx = 55
         ∧ pages_back ctx = Some 40 ∧ pages_forward ctx = Some 60).
Proof.
  split.
  - intros ws total cur url size jc extra pname Hws _ _ Hu Hc.
    destruct (get_pagination_context_returns
                {| paginator_num_pages := total; number := cur |}
                ws (ws `div` 2) url size jc extra pname ltac:(lia)
                (floor_half_exact ws Hws) Hu Hc) as (ctx & Hctx & Hw).
    exists ctx. split; [done|]. rewrite Hw. apply window_reference.
  - intros url size jc extra pname Hu Hc.
    destruct (get_pagination_context_returns
                {| paginator_num_pages := 100; number := 50 |}
                11 5 url size jc extra pname ltac:(lia)
                ltac:(vm_compute; reflexivity) Hu Hc)
      as (ctx & Hctx & Hw).
    exists ctx. split; [done|].
    destruct ctx; simpl in *. by injection Hw as -> -> _ -> ->.
Qed.

(** C2, amended: with at least one page, a window size of at least 1
    and a current page among the pages, every context that is returned
    has 1 <= first <= current <= last <= total and shows the pages
    first, first + 1, ..., last, each within 1..total; and a context is
    returned for every window size below 2^1024 (given a URL that
    parses and acceptable CSS options). *)
Theorem get_pagination_context_window_bounds
    (pages_to_show total current : Z)
    (url size justify_content extra : option string) (pname : string) :
  total > 0 → 1 ≤ pages_to_show → 1 ≤ current ≤ total →
  (pages_to_show < 2 ^ 1024 →
   returns (pagination_url url extra) →
   returns (pagination_classes size justify_content) →
   returns (get_pagination_context
              {| paginator_num_pages := total; number := current |}
              pages_to_show url size justify_content extra pname))
  ∧ (∀ ctx,
       get_pagination_context
         {| paginator_num_pages := total; number := current |}
         pages_to_show url size justify_content extra pname = Ok ctx →
       1 ≤ first_page ctx ≤ current
       ∧ current ≤ last_page ctx ≤ total
       ∧ length (pages_shown ctx)
         = Z.to_nat (last_page ctx - first_page ctx + 1)
       ∧ (∀ i : nat, (i < length (pages_shown ctx))%nat →
            pages_shown ctx !! i = Some (first_page ctx + Z.of_nat i))
       ∧ Forall (λ p, 1 ≤ p ≤ total) (pages_shown ctx)).
Proof.
  intros Htotal Hws Hcur. split.
  - intros Hmax. by apply get_pagination_context_float_range.
  - intros ctx (_ & _ & _ & delta & Hd & Hw)%get_pagination_context_Ok.
    destruct (floor_half_bounds pages_to_show delta Hws Hd) as [Hdelta _].
    pose proof (window_bounds delta pages_to_show total current Hws Hdelta
                  Hcur) as Hb.
    pose proof (window_pages_shown delta pages_to_show total current) as Hs.
    simpl in Hb, Hs, Hw. rewrite <- Hw in Hb, Hs. simpl in Hb, Hs.
    destruct Hb as [Hfirst Hlast]. rewrite Hs.
    split; [done|]. split; [done|]. split; [apply length_seqZ|].
    split.
    + intros i Hi. rewrite length_seqZ in Hi. apply lookup_seqZ_lt. lia.
    + apply Forall_forall. intros p Hp. apply elem_of_seqZ in Hp. lia.
Qed.

(** C3, amended: with no pages and current page 1, the call returns
    for every window size from 1 to below 2^1024 (given a URL that
    parses and acceptable CSS options), and whatever it returns shows
    no page and has no back and no forward target. *)
Theorem get_pagination_context_no_pages (pages_to_show : Z)
    (url size justify_content extra : option string) (pname : string) :
  1 ≤ pages_to_show →
  (pages_to_show < 2 ^ 1024 →
   returns (pagination_url url extra) →
   returns (pagination_classes size justify_content) →
   returns (get_pagination_context
              {| paginator_num_pages := 0; number := 1 |}
              pages_to_show url size justify_content extra pname))
  ∧ (∀ ctx,
       get_pagination_context {| paginator_num_pages := 0; number := 1 |}
         pages_to_show url size justify_content extra pname = Ok ctx →
       pages_shown ctx = []
       ∧ pages_back ctx = None
       ∧ pages_forward ctx = None).
Proof.
  intros Hws. split.
  - intros Hmax. by apply get_pagination_context_float_range.
  - intros ctx (_ & _ & _ & delta & Hd & Hw)%get_pagination_context_Ok.
    destruct (floor_half_bounds pages_to_show delta Hws Hd) as [Hdelta _].
    pose proof (window_no_pages delta pages_to_show Hws ltac:(lia)) as Hn.
    simpl in Hn, Hw. rewrite <- Hw in Hn. exact Hn.
Qed.

(** C4: a window size below 1 raises the [ValueError] on
    [pages_to_show], whatever the other arguments; a window size of
    at least 1 never does (the URL being one the library parses); 0
    raises. *)
Theorem pages_to_show_check (page : Page) (pages_to_show : Z)
    (url size justify_content extra : option string) (pname : string) :
  (pages_to_show < 1 →
   get_pagination_context page pages_to_show url size justify_content
     extra pname = Raise (ValueError (pages_to_show_message pages_to_show)))
  ∧ (1 ≤ pages_to_show → returns (pagination_url url extra) →
     ∀ n, get_pagination_context page pages_to_show url size
            justify_content extra pname
          ≠ Raise (ValueError (pages_to_show_message n)))
  ∧ get_pagination_context page 0 url size justify_content extra pname
    = Raise (ValueError "Pagination pages_to_show should be a positive integer, you specified 0.").
Proof.
  split; [|split].
  - intros Hws. unfold get_pagination_context. by case_decide.
  - intros Hws [u Hu] n. unfold get_pagination_context.
    case_decide; [lia|].
    destruct (floor_half pages_to_show) as [delta|e] eqn:Hd; simpl.
    + rewrite Hu. simpl.
      destruct (pagination_classes size justify_content) as [cls|e] eqn:Hc;
        simpl; [done|].
      apply pagination_classes_raises in Hc as [->|(jc & _ & ->)]; [done|].
      intros Heq.
      assert (Hm : justification_message jc = pages_to_show_message n)
        by congruence.
      by apply messages_differ in Hm.
    + apply floor_half_raises in Hd as ->. done.
  - reflexivity.
Qed.

(** C9: for every window size of at least 1, a returned context shows
    at most [pages_to_show + 1] pages, and it shows the whole range
    from its first to its last page: nothing is taken off it when both
    targets are absent.  A context is returned for every window size
    below 2^1024 (given a URL that parses and acceptable CSS
    options). *)
Theorem get_pagination_context_width (pages_to_show total current : Z)
    (url size justify_content extra : option string) (pname : string) :
  1 ≤ pages_to_show → 0 ≤ total → 1 ≤ current ≤ Z.max total 1 →
  (∀ ctx,
     get_pagination_context
       {| paginator_num_pages := total; number := current |}
       pages_to_show url size justify_content extra pname = Ok ctx →
     Z.of_nat (length (pages_shown ctx)) ≤ pages_to_show + 1
     ∧ length (pages_shown ctx)
       = Z.to_nat (last_page ctx - first_page ctx + 1))
  ∧ (pages_to_show < 2 ^ 1024 →
     returns (pagination_url url extra) →
     returns (pagination_classes size justify_content) →
     returns (get_pagination_context
                {| paginator_num_pages := total; number := current |}
                pages_to_show url size justify_content extra pname)).
Proof.
  intros Hws _ _. split.
  - intros ctx (_ & _ & _ & delta & Hd & Hw)%get_pagination_context_Ok.
    pose proof (window_width delta pages_to_show total current Hws) as Hb.
    pose proof (window_pages_shown delta pages_to_show total current) as Hs.
    simpl in Hb, Hs, Hw. rewrite <- Hw in Hb, Hs. simpl in Hb, Hs.
    rewrite Hs, length_seqZ. split; [lia | done].
  - intros Hmax. by apply get_pagination_context_float_range.
Qed.

(** C10: with at least one page, a window size of at least 1 and a
    current page among the pages, a returned back target lies in
    1..first page and a returned forward target in last page..total.
    A context is returned for every window size below 2^1024 (given a
    URL that parses and acceptable CSS options). *)
Theorem get_pagination_context_targets (pages_to_show total current : Z)
    (url size justify_content extra : option string) (pname : string) :
  1 ≤ total → 1 ≤ pages_to_show → 1 ≤ current ≤ total →
  (∀ ctx,
     get_pagination_context
       {| paginator_num_pages := total; number := current |}
       pages_to_show url size justify_content extra pname = Ok ctx →
     (∀ b, pages_back ctx = Some b → 1 ≤ b ≤ first_page ctx)
     ∧ (∀ f, pages_forward ctx = Some f → last_page ctx ≤ f ≤ total))
  ∧ (pages_to_show < 2 ^ 1024 →
     returns (pagination_url url extra) →
     returns (pagination_classes size justify_content) →
     returns (get_pagination_context
                {| paginator_num_pages := total; number := current |}
                pages_to_show url size justify_content extra pname)).
Proof.
  intros _ Hws Hcur. split.
  - intros ctx (_ & _ & _ & delta & Hd & Hw)%get_pagination_context_Ok.
    destruct (floor_half_bounds pages_to_show delta Hws Hd) as [Hdelta _].
    pose proof (window_targets delta pages_to_show total current
                  ltac:(lia)) as Ht.
    simpl in Ht, Hw. rewrite <- Hw in Ht. exact Ht.
  - intros Hmax. by apply get_pagination_context_float_range.
Qed.

End PaginationFacts.


(** ** The query parameters *)

Lemma dict_get_set_eq (d : qdict) (k : string) (v : list string) :
  dict_get (dict_set d k v) k = Some v.
Proof.
  induction d as [|[k' v'] d IH]; simpl.
  - by rewrite decide_True.
  - destruct (decide (k' = k)) as [->|Hne]; simpl.
    + by rewrite decide_True.
    + by rewrite decide_False.
Qed.

Lemma dict_get_set_ne (d : qdict) (k k' : string) (v : list string) :
  k ≠ k' → dict_get (dict_set d k v) k' = dict_get d k'.
Proof.
  intros Hne. induction d as [|[k0 v0] d IH]; simpl.
  - by rewrite decide_False.
  - destruct (decide (k0 = k)) as [->|Hne0]; simpl.
    + by rewrite !decide_False.
    + by rewrite IH.
Qed.

Lemma dict_get_None (d : qdict) (k : string) :
  dict_get d k = None ↔ k ∉ dict_keys d.
Proof.
  unfold dict_keys. induction d as [|[k' v'] d IH]; simpl.
  - split; [intros _; apply not_elem_of_nil | done].
  - rewrite not_elem_of_cons. destruct (decide (k' = k)) as [->|Hne].
    + split; [done | by intros [? _]].
    + rewrite IH. split; [by intros ? | by intros [_ ?]].
Qed.

(** Assigning to a key keeps the keys in place and puts a new key
    last. *)
Lemma dict_keys_set (d : qdict) (k : string) (v : list string) :
  dict_keys (dict_set d k v)
  = dict_keys d ++ (if decide (k ∈ dict_keys d) then [] else [k]).
Proof.
  unfold dict_keys. induction d as [|[k' v'] d IH]; csimpl.
  - done.
  - destruct (decide (k' = k)) as [->|Hne]; csimpl.
    + rewrite decide_True by apply list_elem_of_here. by rewrite app_nil_r.
    + rewrite IH. f_equal.
      destruct (decide (k ∈ d.*1)) as [Hin|Hnin].
      * rewrite decide_True; [done | by apply list_elem_of_further].
      * rewrite decide_False; [done|]. rewrite not_elem_of_cons. by split.
Qed.

Lemma dict_set_NoDup (d : qdict) (k : string) (v : list string) :
  NoDup (dict_keys d) → NoDup (dict_keys (dict_set d k v)).
Proof.
  intros Hd. rewrite dict_keys_set. case_decide.
  - by rewrite app_nil_r.
  - apply NoDup_app. split; [done|]. split; [|apply NoDup_singleton].
    intros x Hx ->%list_elem_of_singleton. done.
Qed.

Lemma dict_update_NoDup (d other : qdict) :
  NoDup (dict_keys d) → NoDup (dict_keys (dict_update d other)).
Proof.
  unfold dict_update. revert d.
  induction other as [|[k v] other IH]; intros d Hd; simpl; [done|].
  apply IH. by apply dict_set_NoDup.
Qed.

Lemma dict_update_keys_prefix (d other : qdict) :
  dict_keys d `prefix_of` dict_keys (dict_update d other).
Proof.
  unfold dict_update. revert d.
  induction other as [|[k v] other IH]; intros d; simpl; [done|].
  etrans; [|apply IH]. rewrite dict_keys_set. by apply prefix_app_r.
Qed.

(** After [d.update(other)] a key of [other] has the value of [other],
    any other key the value it had. *)
Lemma dict_get_update (d other : qdict) (k : string) :
  NoDup (dict_keys other) →
  dict_get (dict_update d other) k
  = match dict_get other k with
    | Some v => Some v
    | None => dict_get d k
    end.
Proof.
  unfold dict_update. revert d.
  induction other as [|[k' v'] other IH]; intros d Hnd; simpl; [done|].
  apply NoDup_cons in Hnd as [Hk' Hnd]. simpl in Hk'. rewrite IH by done.
  destruct (decide (k' = k)) as [->|Hne].
  - apply dict_get_None in Hk'. rewrite Hk'. apply dict_get_set_eq.
  - by rewrite dict_get_set_ne.
Qed.

Lemma dict_entries_None (d : qdict) (k : string) :
  k ∉ dict_keys d → filter (λ kv, kv.1 = k) d = [].
Proof.
  unfold dict_keys. induction d as [|[k' v'] d IH]; csimpl; [done|].
  intros [Hne Hnin]%not_elem_of_cons.
  rewrite filter_cons_False by (simpl; congruence). by apply IH.
Qed.

(** With distinct keys, the entry of a key is the only one for it. *)
Lemma dict_entries (d : qdict) (k : string) (v : list string) :
  NoDup (dict_keys d) → dict_get d k = Some v →
  filter (λ kv, kv.1 = k) d = [(k, v)].
Proof.
  unfold dict_keys. induction d as [|[k' v'] d IH]; csimpl; [done|].
  intros [Hk' Hnd]%NoDup_cons. destruct (decide (k' = k)) as [->|Hne].
  - intros [= ->]. rewrite filter_cons_True by done. f_equal.
    by apply dict_entries_None.
  - intros Hv. rewrite filter_cons_False by done. by apply IH.
Qed.


Lemma filter_not_in_snoc (keys l : list string) (k : string) :
  k ∉ l →
  filter (λ x, x ∉ keys ++ [k]) l = filter (λ x, x ∉ keys) l.
Proof.
  induction l as [|x l IH]; [done|].
  intros [Hne Hnin]%not_elem_of_cons.
  destruct (decide (x ∈ keys)) as [Hx|Hx].
  - rewrite !filter_cons_False; [by apply IH | by intros ? | ].
    intros Hn. apply Hn. apply elem_of_app. by left.
  - rewrite !filter_cons_True; [by rewrite IH | done | ].
    intros [? | ->%list_elem_of_singleton]%elem_of_app; done.
Qed.

(** [d.update(other)] keeps the keys of [d] where they are and puts
    the new keys of [other] after them, in the order of [other]. *)
Lemma dict_update_keys (d other : list (string * list string)) :
  NoDup (dict_keys other) →
  dict_keys (dict_update d other)
  = dict_keys d ++ filter (λ k, k ∉ dict_keys d) (dict_keys other).
Proof.
  unfold dict_update. revert d.
  induction other as [|[k v] other IH]; intros d Hnd; csimpl.
  - by rewrite app_nil_r.
  - apply NoDup_cons in Hnd as [Hk Hnd]. simpl in Hk.
    fold (dict_keys other) in *. rewrite IH by done.
    rewrite dict_keys_set. destruct (decide (k ∈ dict_keys d)) as [Hin|Hnin].
    + rewrite app_nil_r. rewrite filter_cons_False; [done | by intros ?].
    + rewrite filter_cons_True by done.
      rewrite filter_not_in_snoc by done. by rewrite <- app_assoc.
Qed.


(** An entry of a dict with distinct keys is what [dict_get] finds. *)
Lemma dict_get_cons_ne (d : list (string * list string)) (k k' : string)
    (v : list string) :
  k ≠ k' → dict_get ((k, v) :: d) k' = dict_get d k'.
Proof. intros Hne. simpl. by rewrite decide_False. Qed.

(** The items of a dict with distinct keys, read key by key. *)
Lemma flat_map_by_key {B} (f : string → list string → list B)
    (g : string → list string) (d : list (string * list string)) :
  NoDup (dict_keys d) →
  (∀ k v, dict_get d k = Some v → g k = v) →
  flat_map (λ kv, f kv.1 kv.2) d = flat_map (λ k, f k (g k)) (dict_keys d).
Proof.
  unfold dict_keys. induction d as [|[k v] d IH]; csimpl; [done|].
  intros [Hk Hnd]%NoDup_cons Hg. f_equal.
  - f_equal. symmetry. apply Hg. by rewrite decide_True.
  - apply IH; [done|]. intros k' v' Hk'. apply Hg.
    rewrite decide_False; [done|]. intros ->.
    apply dict_get_None in Hk. unfold dict_keys in Hk. congruence.
Qed.

Section UrlFacts.
Context `{UrlLib}.

(** [parse_qs] builds a dict: no name occurs twice among its keys. *)
Lemma parse_qs_NoDup (qs : string) : NoDup (dict_keys (parse_qs qs)).
Proof.
  unfold parse_qs.
  assert (Hgen : ∀ (pairs : list (string * string)) (d : qdict),
    NoDup (dict_keys d) →
    NoDup (dict_keys
      (foldl (λ parsed_result nv,
                match dict_get parsed_result nv.1 with
                | Some vs => dict_set parsed_result nv.1 (vs ++ [nv.2])
                | None => dict_set parsed_result nv.1 [nv.2]
                end) d pairs))).
  { induction pairs as [|[n v] pairs IH]; intros d Hd; simpl; [done|].
    apply IH. destruct (dict_get d n); by apply dict_set_NoDup. }
  apply Hgen. apply NoDup_nil_2.
Qed.

(** The names of the merged parameters, in order. *)
Lemma merged_params_keys (base_query : string) (extra : option string) :
  dict_keys (merged_params base_query extra)
  = dict_keys (parse_qs base_query)
    ++ filter (λ k, k ∉ dict_keys (parse_qs base_query))
         (dict_keys (if truthy extra
                     then parse_qs (default EmptyString extra) else [])).
Proof.
  unfold merged_params. destruct (truthy extra).
  - apply dict_update_keys, parse_qs_NoDup.
  - by rewrite app_nil_r.
Qed.

Lemma merged_params_NoDup (base_query : string) (extra : option string) :
  NoDup (dict_keys (merged_params base_query extra)).
Proof.
  unfold merged_params. destruct (truthy extra).
  - apply dict_update_NoDup, parse_qs_NoDup.
  - apply parse_qs_NoDup.
Qed.

(** The values of a name in the merged parameters. *)
Lemma merged_params_get (base_query : string) (extra : option string)
    (k : string) :
  dict_get (merged_params base_query extra) k
  = match dict_get (if truthy extra
                    then parse_qs (default EmptyString extra) else []) k with
    | Some vs => Some vs
    | None => dict_get (parse_qs base_query) k
    end.
Proof.
  unfold merged_params. destruct (truthy extra); [|done].
  apply dict_get_update, parse_qs_NoDup.
Qed.

End UrlFacts.

(** The claim that every key of the URL's query that [extra] does not
    name keeps its values fails for a key with a blank value and for a
    key without [=]: [parse_qs] does not read them, and the rebuilt
    query has lost them. *)
Lemma pagination_url_merges_counterexample :
  pagination_url (H := RelativeUrls.relative_urllib)
    (Some "/list?x=&flag&y=1") None
  = Ok "/list?y=1".
Proof. vm_compute. reflexivity. Qed.

(** C5, amended: for a URL that [urlparse] accepts, the rebuilt URL is
    the parsed URL with its query replaced by the [name=value] items,
    joined by [&], of: first the names [parse_qs] reads from the URL's
    query, in their order, then the names it reads from [extra] that the
    URL does not have; a name read from [extra] carries the values of
    [extra], any other name the values read from the URL; no name comes
    twice.  ([parse_qs] reads the names that have a non-blank value.)  A
    returned context carries that URL; when [urlparse] raises, the
    rebuild raises the same exception.  Merging [page=3] into
    [/list?sort=name&page=1] gives [/list?sort=name&page=3]. *)
Theorem pagination_url_merges :
  (∀ (L : UrlLib) (url extra : option string) (parts : ParseResult),
     urlparse (or_empty url) = Ok parts →
     let base := parse_qs (query parts) in
     let to_merge :=
       if truthy extra then parse_qs (default EmptyString extra) else [] in
     let names :=
       dict_keys base ++ filter (λ k, k ∉ dict_keys base) (dict_keys to_merge) in
     let values := λ k,
       match dict_get to_merge k with
       | Some vs => vs
       | None => default [] (dict_get base k)
       end in
     let items :=
       flat_map (λ k, (λ v, quote_plus k +:+ "=" +:+ quote_plus v) <$> values k)
         names in
     let rebuilt :=
       urlunparse {| scheme := scheme parts;
                     netloc := netloc parts;
                     path := path parts;
                     params := params parts;
                     query := String.concat "&" items;
                     fragment := fragment parts |} in
     pagination_url url extra = Ok rebuilt
     ∧ NoDup names
     ∧ (∀ page pages_to_show size justify_content pname ctx,
          get_pagination_context page pages_to_show url size
            justify_content extra pname = Ok ctx →
          govbrds_pagination_url ctx = rebuilt))
  ∧ (∀ (L : UrlLib) (url extra : option string) (e : exn),
       urlparse (or_empty url) = Raise e →
       pagination_url url extra = Raise e)
  ∧ pagination_url (H := RelativeUrls.relative_urllib)
      (Some "/list?sort=name&page=1") (Some "page=3")
    = Ok "/list?sort=name&page=3".
Proof.
  split; [|split; [|vm_compute; reflexivity]].
  - intros L url extra parts Hparts base to_merge names values items rebuilt.
    assert (Hnames : dict_keys (merged_params (query parts) extra) = names)
      by apply merged_params_keys.
    assert (Hitems : urlencode (merged_params (query parts) extra)
                     = String.concat "&" items).
    { unfold urlencode. f_equal. subst items. rewrite <- Hnames.
      apply (flat_map_by_key
               (λ k vs, (λ v, quote_plus k +:+ "=" +:+ quote_plus v) <$> vs)
               values).
      - apply merged_params_NoDup.
      - intros k v Hk. rewrite merged_params_get in Hk. subst values. simpl.
        fold to_merge in Hk. fold base in Hk.
        destruct (dict_get to_merge k); [congruence|]. by rewrite Hk. }
    assert (Hurl : pagination_url url extra = Ok rebuilt).
    { unfold pagination_url. rewrite Hparts. simpl. by rewrite Hitems. }
    split; [exact Hurl|]. split.
    + rewrite <- Hnames. apply merged_params_NoDup.
    + intros page ws size jc pname ctx Hctx.
      apply get_pagination_context_Ok in Hctx as (_ & Hu & _).
      rewrite Hurl in Hu. by injection Hu as <-.
  - intros L url extra e Hparts. unfold pagination_url. by rewrite Hparts.
Qed.

(** The URL of the worked example parses into a path and a query; the
    rebuilt query holds [sort] and then the new [page]. *)
Lemma pagination_url_merges_witness :
  pagination_url (H := RelativeUrls.relative_urllib)
    (Some "/list?sort=name&page=1") (Some "page=3")
  = Ok "/list?sort=name&page=3"
  ∧ NoDup ["sort"; "page"].
Proof.
  destruct (proj1 pagination_url_merges RelativeUrls.relative_urllib
              (Some "/list?sort=name&page=1") (Some "page=3")
              {| scheme := EmptyString; netloc := EmptyString;
                 path := "/list"; params := EmptyString;
                 query := "sort=name&page=1"; fragment := EmptyString |}
              ltac:(vm_compute; reflexivity))
    as (Hurl & Hnd & _).
  split.
  - rewrite Hurl. vm_compute. reflexivity.
  - vm_compute in Hnd. exact Hnd.
Defined.


(** ** Where the float step gives way *)

(** The claim that the reference algorithm gives the window for every
    window size fails beyond the doubles: at 2^1025 the quotient
    [pages_to_show / 2] does not fit a float and the call raises
    [OverflowError]; at 2^53 + 3 the quotient is rounded up, and the
    first page is one less than the reference algorithm's. *)
Lemma get_pagination_context_reference_counterexample :
  get_pagination_context (H := RelativeUrls.relative_urllib)
    {| paginator_num_pages := 0; number := 1 |}
    (2 ^ 1025) None None None None "page"
  = Raise (OverflowError "integer division result too large for a float")
  ∧ ∃ ctx,
      get_pagination_context (H := RelativeUrls.relative_urllib)
        {| paginator_num_pages := 2 ^ 55; number := 2 ^ 54 |}
        (2 ^ 53 + 3) None None None None "page" = Ok ctx
      ∧ first_page ctx = 2 ^ 54 - 4503599627370498
      ∧ firstPage (computeWindow (2 ^ 53 + 3) (2 ^ 55) (2 ^ 54))
        = 2 ^ 54 - 4503599627370497.
Proof.
  split; [vm_compute; reflexivity|].
  destruct (get_pagination_context_returns
              (H := RelativeUrls.relative_urllib)
              {| paginator_num_pages := 2 ^ 55; number := 2 ^ 54 |}
              (2 ^ 53 + 3) 4503599627370498 None None None None "page")
    as (ctx & Hctx & Hw).
  { lia. }
  { vm_compute. reflexivity. }
  { vm_compute. eexists. reflexivity. }
  { vm_compute. eexists. reflexivity. }
  exists ctx. split; [exact Hctx|]. split.
  - change (first_page ctx) with (w_first_page (context_window ctx)).
    rewrite Hw. cbv [paginator_num_pages number].
    apply window_first_page_inside; lia.
  - rewrite <- window_reference, firstPage_plan_of.
    rewrite window_first_page_inside.
    + change ((2 ^ 53 + 3) `div` 2) with 4503599627370497. reflexivity.
    + change ((2 ^ 53 + 3) `div` 2) with 4503599627370497. lia.
    + change ((2 ^ 53 + 3) `div` 2) with 4503599627370497. lia.
Qed.

(** The claim that a window is returned for every window size fails at
    2^1025, with one page and current page 1. *)
Lemma get_pagination_context_window_bounds_counterexample :
  get_pagination_context (H := RelativeUrls.relative_urllib)
    {| paginator_num_pages := 1; number := 1 |}
    (2 ^ 1025) None None None None "page"
  = Raise (OverflowError "integer division result too large for a float").
Proof. vm_compute. reflexivity. Qed.

(** The claim that the call returns for every window size when there
    are no pages fails at 2^1025 and beyond, here at 2^1030. *)
Lemma get_pagination_context_no_pages_counterexample :
  get_pagination_context (H := RelativeUrls.relative_urllib)
    {| paginator_num_pages := 0; number := 1 |}
    (2 ^ 1030) None None None None "page"
  = Raise (OverflowError "integer division result too large for a float").
Proof. vm_compute. reflexivity. Qed.

(** The largest window size whose half is a double, and the next
    one. *)
Example floor_half_last :
  floor_half (2 ^ 1025 - 2 ^ 971 - 1) = Ok ((2 ^ 53 - 1) * 2 ^ 971)
  ∧ floor_half (2 ^ 1025 - 2 ^ 971)
    = Raise (OverflowError "integer division result too large for a float").
Proof. split; vm_compute; reflexivity. Qed.

Example floor_half_rounds :
  floor_half (2 ^ 53 + 1) = Ok (2 ^ 52)
  ∧ floor_half (2 ^ 53 + 3) = Ok (2 ^ 52 + 2).
Proof. split; vm_compute; reflexivity. Qed.

(** ** Witnesses for the window *)

Lemma get_pagination_context_reference_witness :
  ∃ ctx,
    get_pagination_context (H := RelativeUrls.relative_urllib)
      {| paginator_num_pages := 100; number := 50 |}
      11 None None None None "page" = Ok ctx
    ∧ plan_of (context_window ctx) = computeWindow 11 100 50.
Proof.
  apply (proj1 (get_pagination_context_reference
                  (H := RelativeUrls.relative_urllib))); try lia;
    vm_compute; eexists; reflexivity.
Defined.

Lemma get_pagination_context_window_bounds_witness :
  ∃ ctx,
    get_pagination_context (H := RelativeUrls.relative_urllib)
      {| paginator_num_pages := 5; number := 1 |}
      11 None None None None "page" = Ok ctx
    ∧ 1 ≤ first_page ctx ≤ 1
    ∧ 1 ≤ last_page ctx ≤ 5
    ∧ length (pages_shown ctx) = Z.to_nat (last_page ctx - first_page ctx + 1)
    ∧ (∀ i : nat, (i < length (pages_shown ctx))%nat →
         pages_shown ctx !! i = Some (first_page ctx + Z.of_nat i))
    ∧ Forall (λ p, 1 ≤ p ≤ 5) (pages_shown ctx).
Proof.
  destruct (get_pagination_context_window_bounds
              (H := RelativeUrls.relative_urllib) 11 5 1
              None None None None "page") as [Hret Hall]; try lia.
  destruct Hret as [ctx Hctx];
    [lia | vm_compute; eexists; reflexivity..|].
  exists ctx. split; [exact Hctx | by apply Hall].
Defined.

Lemma get_pagination_context_no_pages_witness :
  ∃ ctx,
    get_pagination_context (H := RelativeUrls.relative_urllib)
      {| paginator_num_pages := 0; number := 1 |}
      11 None None None None "page" = Ok ctx
    ∧ pages_shown ctx = []
    ∧ pages_back ctx = None
    ∧ pages_forward ctx = None.
Proof.
  destruct (get_pagination_context_no_pages
              (H := RelativeUrls.relative_urllib) 11
              None None None None "page") as [Hret Hall]; try lia.
  destruct Hret as [ctx Hctx];
    [lia | vm_compute; eexists; reflexivity..|].
  exists ctx. split; [exact Hctx | by apply Hall].
Defined.

Lemma pages_to_show_check_witness :
  get_pagination_context (H := RelativeUrls.relative_urllib)
    {| paginator_num_pages := 5; number := 1 |}
    (-3) None None None None "page"
  = Raise (ValueError (pages_to_show_message (-3)))
  ∧ ∀ n, get_pagination_context (H := RelativeUrls.relative_urllib)
           {| paginator_num_pages := 5; number := 1 |}
           1 None None (Some "middle") None "page"
         ≠ Raise (ValueError (pages_to_show_message n)).
Proof.
  split.
  - apply (proj1 (pages_to_show_check (H := RelativeUrls.relative_urllib)
                    {| paginator_num_pages := 5; number := 1 |}
                    (-3) None None None None "page")).
    lia.
  - apply (proj1 (proj2 (pages_to_show_check
                    (H := RelativeUrls.relative_urllib)
                    {| paginator_num_pages := 5; number := 1 |}
                    1 None None (Some "middle") None "page"))).
    + lia.
    + vm_compute. eexists. reflexivity.
Defined.

Lemma get_pagination_context_width_witness :
  ∃ ctx,
    get_pagination_context (H := RelativeUrls.relative_urllib)
      {| paginator_num_pages := 4; number := 2 |}
      3 None None None None "page" = Ok ctx
    ∧ Z.of_nat (length (pages_shown ctx)) ≤ 3 + 1
    ∧ length (pages_shown ctx)
      = Z.to_nat (last_page ctx - first_page ctx + 1).
Proof.
  destruct (get_pagination_context_width
              (H := RelativeUrls.relative_urllib) 3 4 2
              None None None None "page") as [Hall Hret]; try lia.
  destruct Hret as [ctx Hctx];
    [lia | vm_compute; eexists; reflexivity..|].
  exists ctx. split; [exact Hctx | by apply Hall].
Defined.

Lemma get_pagination_context_targets_witness :
  ∃ ctx,
    get_pagination_context (H := RelativeUrls.relative_urllib)
      {| paginator_num_pages := 100; number := 50 |}
      11 None None None None "page" = Ok ctx
    ∧ (∀ b, pages_back ctx = Some b → 1 ≤ b ≤ first_page ctx)
    ∧ (∀ f, pages_forward ctx = Some f → last_page ctx ≤ f ≤ 100).
Proof.
  destruct (get_pagination_context_targets
              (H := RelativeUrls.relative_urllib) 11 100 50
              None None None None "page") as [Hall Hret]; try lia.
  destruct Hret as [ctx Hctx];
    [lia | vm_compute; eexists; reflexivity..|].
  exists ctx. split; [exact Hctx | by apply Hall].
Defined.

(** The window may hold one page more than asked for: four pages for a
    window size of three. *)
Example window_one_more :
  w_pages_shown (pagination_window 1 3 4 2) = [1; 2; 3; 4].
Proof. reflexivity. Qed.

Example window_five_pages :
  pagination_window 5 11 5 1
  = {| w_first_page := 1; w_last_page := 5;
       w_pages_shown := [1; 2; 3; 4; 5];
       w_pages_back := None; w_pages_forward := None |}.
Proof. reflexivity. Qed.

Example window_last_page :
  pagination_window 5 11 100 100
  = {| w_first_page := 94; w_last_page := 100;
       w_pages_shown := [94; 95; 96; 97; 98; 99; 100];
       w_pages_back := Some 89; w_pages_forward := None |}.
Proof. reflexivity. Qed.

(** ** The justification option *)

Lemma truthy_nonempty (s : string) : s ≠ EmptyString → truthy (Some s) = true.
Proof. by destruct s. Qed.

(** The claim that every [justify_content] other than the three names
    raises fails at the empty string: the check is guarded by
    [if justify_content:], so the call returns, with the class
    [pagination] alone. *)
Lemma justify_content_empty_counterexample :
  (EmptyString ∉ ["start"; "center"; "end"])
  ∧ get_pagination_context (H := RelativeUrls.relative_urllib)
      {| paginator_num_pages := 5; number := 1 |}
      11 None None (Some EmptyString) None "page"
    = Ok {| govbrds_pagination_url := EmptyString;
            num_pages := 5;
            current_page := 1;
            first_page := 1;
            last_page := 5;
            pages_shown := [1; 2; 3; 4; 5];
            pages_back := None;
            pages_forward := None;
            pagination_css_classes := "pagination";
            parameter_name := "page" |}.
Proof.
  split.
  - intros Hin. repeat (apply elem_of_cons in Hin as [[=]|Hin]).
    by apply not_elem_of_nil in Hin.
  - vm_compute. reflexivity.
Qed.

Section JustifyFacts.
Context `{UrlLib}.

(** C8, amended: for a window size from 1 to below 2^1024, a URL that
    parses and no size option, a non-empty [justify_content] other than
    [start], [center] and [end] raises the [ValueError] that names
    it; one of the three returns, with the classes
    [pagination justify-content-<value>]; an absent or empty
    [justify_content] returns, with the class [pagination] alone. *)
Theorem justify_content_check (page : Page) (pages_to_show : Z)
    (url size justify_content extra : option string) (pname : string) :
  1 ≤ pages_to_show < 2 ^ 1024 →
  returns (pagination_url url extra) →
  truthy size = false →
  (∀ jc, justify_content = Some jc → jc ≠ EmptyString →
     jc ∉ ["start"; "center"; "end"] →
     get_pagination_context page pages_to_show url size justify_content
       extra pname = Raise (ValueError (justification_message jc)))
  ∧ (∀ jc, justify_content = Some jc → jc ∈ ["start"; "center"; "end"] →
       ∃ ctx,
         get_pagination_context page pages_to_show url size
           justify_content extra pname = Ok ctx
         ∧ pagination_css_classes ctx = "pagination justify-content-" +:+ jc)
  ∧ (truthy justify_content = false →
     ∃ ctx,
       get_pagination_context page pages_to_show url size justify_content
         extra pname = Ok ctx
       ∧ pagination_css_classes ctx = "pagination").
Proof.
  intros Hws [u Hu] Hsize.
  destruct (floor_half_returns pages_to_show Hws) as [delta Hdelta].
  assert (Hgpc : ∀ r,
    pagination_classes size justify_content = r →
    get_pagination_context page pages_to_show url size justify_content
      extra pname
    = cls ← r;
      Ok {| govbrds_pagination_url := u;
            num_pages := paginator_num_pages page;
            current_page := number page;
            first_page := w_first_page (pagination_window delta
                            pages_to_show (paginator_num_pages page)
                            (number page));
            last_page := w_last_page (pagination_window delta
                            pages_to_show (paginator_num_pages page)
                            (number page));
            pages_shown := w_pages_shown (pagination_window delta
                            pages_to_show (paginator_num_pages page)
                            (number page));
            pages_back := w_pages_back (pagination_window delta
                            pages_to_show (paginator_num_pages page)
                            (number page));
            pages_forward := w_pages_forward (pagination_window delta
                            pages_to_show (paginator_num_pages page)
                            (number page));
            pagination_css_classes := String.concat " " cls;
            parameter_name := pname |}).
  { intros r <-. unfold get_pagination_context.
    case_decide; [lia|]. rewrite Hdelta. simpl. rewrite Hu. reflexivity. }
  pose proof (pagination_classes_no_size size justify_content Hsize) as Hc.
  split; [|split].
  - intros jc -> Hne Hnin. rewrite truthy_nonempty in Hc by done.
    rewrite decide_False in Hc by done. by rewrite (Hgpc _ Hc).
  - intros jc -> Hin.
    assert (Hne : jc ≠ EmptyString).
    { intros ->. repeat (apply elem_of_cons in Hin as [[=]|Hin]).
      by apply not_elem_of_nil in Hin. }
    rewrite truthy_nonempty in Hc by done.
    rewrite decide_True in Hc by done. rewrite (Hgpc _ Hc).
    eexists. split; reflexivity.
  - intros Hjc. destruct justify_content as [jc|].
    + rewrite Hjc in Hc. rewrite (Hgpc _ Hc). eexists. split; reflexivity.
    + rewrite (Hgpc _ Hc). eexists. split; reflexivity.
Qed.

End JustifyFacts.

Lemma justify_content_check_witness :
  get_pagination_context (H := RelativeUrls.relative_urllib)
    {| paginator_num_pages := 5; number := 1 |}
    11 None None (Some "middle") None "page"
  = Raise (ValueError "Invalid value 'middle' for pagination justification. Valid values are 'start', 'center', 'end'.")
  ∧ (∃ ctx,
       get_pagination_context (H := RelativeUrls.relative_urllib)
         {| paginator_num_pages := 5; number := 1 |}
         11 None None (Some "center") None "page" = Ok ctx
       ∧ pagination_css_classes ctx = "pagination justify-content-center").
Proof.
  split.
  - apply (proj1 (justify_content_check (H := RelativeUrls.relative_urllib)
                    {| paginator_num_pages := 5; number := 1 |}
                    11 None None (Some "middle") None "page"
                    ltac:(lia)
                    ltac:(vm_compute; eexists; reflexivity)
                    ltac:(reflexivity)) "middle").
    + reflexivity.
    + discriminate.
    + intros Hin. repeat (apply elem_of_cons in Hin as [[=]|Hin]).
      by apply not_elem_of_nil in Hin.
  - apply (proj1 (proj2 (justify_content_check
                    (H := RelativeUrls.relative_urllib)
                    {| paginator_num_pages := 5; number := 1 |}
                    11 None None (Some "center") None "page"
                    ltac:(lia)
                    ltac:(vm_compute; eexists; reflexivity)
                    ltac:(reflexivity))) "center").
    + reflexivity.
    + apply elem_of_cons. right. apply list_elem_of_here.
Defined.


(** * Further properties *)

Import Tags.

(** ** Paths and renderer maps *)

Lemma rsplit_dot_no_dot_None (s : string) :
  "."%char ∉ list_ascii_of_string s → rsplit_dot s = None.
Proof.
  induction s as [|c s IH]; simpl; [done|].
  intros [Hc Hs]%not_elem_of_cons. rewrite IH by done.
  destruct (Ascii.eqb_spec c "."%char) as [->|_]; [done|]. reflexivity.
Qed.

Lemma rsplit_dot_last (m c : string) :
  "."%char ∉ list_ascii_of_string c →
  rsplit_dot (m +:+ "." +:+ c) = Some (m, c).
Proof.
  intros Hc. induction m as [|a m IH]; simpl.
  - by rewrite rsplit_dot_no_dot_None.
  - simpl in IH. by rewrite IH.
Qed.

Section RendererErrors.
Context {Renderer : Type} (import_attr : string → string → result Renderer).

(** X1: the fallback [renderers["default"]] is evaluated before the
    layout is looked up: a map without a ["default"] entry raises
    [KeyError] also for a layout that it registers. *)
Theorem get_renderer_requires_default
    (renderers kwargs : gmap string string) (p : string) :
  renderers !! "default" = None →
  renderers !! default EmptyString (kwargs !! "layout") = Some p →
  get_renderer import_attr renderers kwargs = Raise (KeyError "default").
Proof. intros Hd _. by apply get_renderer_no_default. Qed.

(** X2: the selected path is cut at its last dot: what stands before
    it is imported as the module, what stands after it is looked up as
    the class; a selected path without a dot raises the [ValueError] of
    the failed unpacking, and nothing is imported. *)
Theorem get_renderer_splits_path
    (renderers kwargs : gmap string string) (fallback : string) :
  renderers !! "default" = Some fallback →
  let layout := default EmptyString (kwargs !! "layout") in
  let path := default fallback (renderers !! layout) in
  (∀ m c, path = m +:+ "." +:+ c → "."%char ∉ list_ascii_of_string c →
     get_renderer import_attr renderers kwargs = import_attr m c)
  ∧ ("."%char ∉ list_ascii_of_string path →
     get_renderer import_attr renderers kwargs
     = Raise (ValueError "not enough values to unpack (expected 2, got 1)")).
Proof.
  intros Hd layout path.
  assert (Hsel : get_renderer import_attr renderers kwargs
                 = load_path import_attr path).
  { unfold get_renderer, subscript. rewrite Hd. reflexivity. }
  rewrite Hsel. unfold load_path. split.
  - intros m c -> Hc. by rewrite rsplit_dot_last.
  - intros Hp. by rewrite rsplit_dot_no_dot_None.
Qed.

(** X3: a host setting replaces the library's renderer map as a whole:
    when the host's map has no ["default"] entry, the three renderer
    functions raise [KeyError] for every layout, registered or not; when
    the host stores something that is no dict under the name, they
    raise [AttributeError]. *)
Theorem host_renderers_replace_defaults
    (settings : django_settings) (host : gmap string setting)
    (kwargs : gmap string string) :
  GOVBRDS settings = Some host →
  (∀ m, host !! "form_renderers" = Some (SDict m) → m !! "default" = None →
     get_form_renderer import_attr settings kwargs
     = Raise (KeyError "default"))
  ∧ (∀ m, host !! "field_renderers" = Some (SDict m) → m !! "default" = None →
       get_field_renderer import_attr settings kwargs
       = Raise (KeyError "default"))
  ∧ (∀ m, host !! "formset_renderers" = Some (SDict m) →
       m !! "default" = None →
       get_formset_renderer import_attr settings kwargs
       = Raise (KeyError "default"))
  ∧ (∀ v, host !! "form_renderers" = Some v → (∀ m, v ≠ SDict m) →
       get_form_renderer import_attr settings kwargs
       = Raise (AttributeError "get"))
  ∧ (∀ v, host !! "field_renderers" = Some v → (∀ m, v ≠ SDict m) →
       get_field_renderer import_attr settings kwargs
       = Raise (AttributeError "get"))
  ∧ (∀ v, host !! "formset_renderers" = Some v → (∀ m, v ≠ SDict m) →
       get_formset_renderer import_attr settings kwargs
       = Raise (AttributeError "get")).
Proof.
  intros Hhost.
  assert (Hget : ∀ name v, host !! name = Some v →
            get_govbrds_setting settings name SNone = v).
  { intros name v Hv. unfold get_govbrds_setting. rewrite Hhost. simpl.
    by rewrite Hv. }
  assert (Hkey : ∀ m, m !! "default" = None →
            get_renderer_of import_attr (SDict m) kwargs
            = Raise (KeyError "default")).
  { intros m Hm. simpl. unfold get_renderer, subscript. by rewrite Hm. }
  assert (Hattr : ∀ v, (∀ m, v ≠ SDict m) →
            get_renderer_of import_attr v kwargs
            = Raise (AttributeError "get")).
  { intros [| | |m] Hv; try reflexivity. by destruct (Hv m). }
  repeat split.
  - intros m Hm Hd. unfold get_form_renderer. rewrite (Hget _ _ Hm). auto.
  - intros m Hm Hd. unfold get_field_renderer. rewrite (Hget _ _ Hm). auto.
  - intros m Hm Hd. unfold get_formset_renderer. rewrite (Hget _ _ Hm). auto.
  - intros v Hv Hn. unfold get_form_renderer. rewrite (Hget _ _ Hv). auto.
  - intros v Hv Hn. unfold get_field_renderer. rewrite (Hget _ _ Hv). auto.
  - intros v Hv Hn. unfold get_formset_renderer. rewrite (Hget _ _ Hv). auto.
Qed.

(** The library's renderer map of a name the host does not set. *)
Lemma default_renderers (settings : django_settings) (name path : string)
    (kwargs : gmap string string) :
  default ∅ (GOVBRDS settings) !! name = None →
  GOVBRDS_DEFAULTS !! name = Some (SDict {[ "default" := path ]}) →
  get_renderer_of import_attr (get_govbrds_setting settings name SNone) kwargs
  = load_path import_attr path.
Proof.
  intros Hhost Hdef. unfold get_govbrds_setting. rewrite Hhost, Hdef. simpl.
  unfold get_renderer, subscript. rewrite lookup_singleton_eq. simpl.
  destruct (decide (default EmptyString (kwargs !! "layout") = "default"))
    as [->|Hne].
  - by rewrite lookup_singleton_eq.
  - by rewrite lookup_singleton_ne.
Qed.

(** X4: in a project that does not set the renderer maps, every layout
    resolves to the library's renderer classes: the module
    [django_govbrds.renderers] with the classes [FormRenderer],
    [FieldRenderer] and [FormsetRenderer]. *)
Theorem default_renderers_for_every_layout
    (settings : django_settings) (kwargs : gmap string string) :
  let host : gmap string setting := default ∅ (GOVBRDS settings) in
  (host !! "form_renderers" = None →
   get_form_renderer import_attr settings kwargs
   = import_attr "django_govbrds.renderers" "FormRenderer")
  ∧ (host !! "field_renderers" = None →
     get_field_renderer import_attr settings kwargs
     = import_attr "django_govbrds.renderers" "FieldRenderer")
  ∧ (host !! "formset_renderers" = None →
     get_formset_renderer import_attr settings kwargs
     = import_attr "django_govbrds.renderers" "FormsetRenderer").
Proof.
  intros host. repeat split; intros Hh.
  - unfold get_form_renderer.
    rewrite (default_renderers settings "form_renderers"
               "django_govbrds.renderers.FormRenderer" kwargs Hh);
      [reflexivity | vm_compute; reflexivity].
  - unfold get_field_renderer.
    rewrite (default_renderers settings "field_renderers"
               "django_govbrds.renderers.FieldRenderer" kwargs Hh);
      [reflexivity | vm_compute; reflexivity].
  - unfold get_formset_renderer.
    rewrite (default_renderers settings "formset_renderers"
               "django_govbrds.renderers.FormsetRenderer" kwargs Hh);
      [reflexivity | vm_compute; reflexivity].
Qed.

End RendererErrors.

Lemma get_renderer_requires_default_witness :
  get_renderer (λ mod_ cls : string, Ok (mod_, cls))
    {[ "horizontal" := "app.renderers.HorizontalFieldRenderer" ]}
    {[ "layout" := "horizontal" ]}
  = Raise (KeyError "default").
Proof.
  apply (get_renderer_requires_default (λ mod_ cls : string, Ok (mod_, cls))
           {[ "horizontal" := "app.renderers.HorizontalFieldRenderer" ]}
           {[ "layout" := "horizontal" ]}
           "app.renderers.HorizontalFieldRenderer");
    vm_compute; reflexivity.
Defined.

Lemma get_renderer_splits_path_witness :
  get_renderer (λ mod_ cls : string, Ok (mod_, cls))
    {[ "default" := "app.forms.renderers.Plain" ]} ∅
  = Ok ("app.forms.renderers", "Plain")
  ∧ get_renderer (Renderer := string * string) (λ mod_ cls, Ok (mod_, cls))
      {[ "default" := "Plain" ]} ∅
    = Raise (ValueError "not enough values to unpack (expected 2, got 1)").
Proof.
  split.
  - destruct (get_renderer_splits_path (λ mod_ cls : string, Ok (mod_, cls))
                ({[ "default" := "app.forms.renderers.Plain" ]}
                   : gmap string string) ∅
                "app.forms.renderers.Plain") as [Hsplit _].
    { vm_compute. reflexivity. }
    apply (Hsplit "app.forms.renderers" "Plain").
    + vm_compute. reflexivity.
    + intros Hin. repeat (apply elem_of_cons in Hin as [[=]|Hin]).
      by apply not_elem_of_nil in Hin.
  - destruct (get_renderer_splits_path
                (Renderer := string * string) (λ mod_ cls, Ok (mod_, cls))
                ({[ "default" := "Plain" ]} : gmap string string) ∅ "Plain")
      as [_ Hnone].
    { vm_compute. reflexivity. }
    apply Hnone. intros Hin. vm_compute in Hin.
    repeat (apply elem_of_cons in Hin as [[=]|Hin]).
    by apply not_elem_of_nil in Hin.
Defined.

Lemma host_renderers_replace_defaults_witness :
  get_field_renderer (λ mod_ cls : string, Ok (mod_, cls))
    {| GOVBRDS := Some {[ "field_renderers" :=
         SDict {[ "horizontal" := "app.renderers.HorizontalFieldRenderer" ]} ]} |}
    {[ "layout" := "horizontal" ]}
  = Raise (KeyError "default")
  ∧ get_form_renderer (Renderer := string * string) (λ mod_ cls, Ok (mod_, cls))
      {| GOVBRDS := Some {[ "form_renderers" := SNone ]} |} ∅
    = Raise (AttributeError "get").
Proof.
  split.
  - apply (proj1 (proj2 (host_renderers_replace_defaults
             (λ mod_ cls : string, Ok (mod_, cls))
             {| GOVBRDS := Some {[ "field_renderers" :=
                  SDict {[ "horizontal" :=
                    "app.renderers.HorizontalFieldRenderer" ]} ]} |}
             {[ "field_renderers" :=
                  SDict {[ "horizontal" :=
                    "app.renderers.HorizontalFieldRenderer" ]} ]}
             {[ "layout" := "horizontal" ]} eq_refl))
             {[ "horizontal" := "app.renderers.HorizontalFieldRenderer" ]});
      vm_compute; reflexivity.
  - apply (proj1 (proj2 (proj2 (proj2 (host_renderers_replace_defaults
             (Renderer := string * string) (λ mod_ cls, Ok (mod_, cls))
             {| GOVBRDS := Some {[ "form_renderers" := SNone ]} |}
             {[ "form_renderers" := SNone ]} ∅ eq_refl)))) SNone).
    + vm_compute. reflexivity.
    + discriminate.
Defined.

Lemma default_renderers_for_every_layout_witness :
  get_form_renderer (λ mod_ cls : string, Ok (mod_, cls))
    {| GOVBRDS := Some {[ "wrapper_class" := SStr "mb-4" ]} |}
    {[ "layout" := "inline" ]}
  = Ok ("django_govbrds.renderers", "FormRenderer").
Proof.
  apply (proj1 (default_renderers_for_every_layout
                  (λ mod_ cls : string, Ok (mod_, cls))
                  {| GOVBRDS := Some {[ "wrapper_class" := SStr "mb-4" ]} |}
                  {[ "layout" := "inline" ]})).
  vm_compute. reflexivity.
Defined.

(** ** The other tags *)

(** X5: the alert type of a message is always one of [warning], [info],
    [success] and [danger], whatever the level constants are; it is
    [info] for a message without a level and for a level that is none
    of the five constants; and no exception leaves the filter. *)
Theorem govbrds_message_alert_type_total (C : MessageConstants)
    (message : Message) :
  govbrds_message_alert_type message
    ∈ ["warning"; "info"; "success"; "danger"]
  ∧ (level message = None → govbrds_message_alert_type message = "info")
  ∧ (∀ l, level message = Some l →
       l ∉ [DEBUG; INFO; SUCCESS; WARNING; ERROR] →
       govbrds_message_alert_type message = "info").
Proof.
  unfold govbrds_message_alert_type, MESSAGE_ALERT_TYPES.
  split; [|split].
  - destruct (level message) as [l|]; [|set_solver].
    rewrite !lookup_insert. repeat case_decide; simpl; set_solver.
  - by intros ->.
  - intros l -> Hl. rewrite !not_elem_of_cons in Hl.
    destruct Hl as (? & ? & ? & ? & ? & _).
    by rewrite !lookup_insert_ne.
Qed.

Lemma govbrds_message_alert_type_total_witness :
  govbrds_message_alert_type (H := django_message_constants)
    {| level := None |} = "info"
  ∧ govbrds_message_alert_type (H := django_message_constants)
      {| level := Some 35 |} = "info".
Proof.
  split.
  - apply (proj1 (proj2 (govbrds_message_alert_type_total
                           django_message_constants {| level := None |}))).
    reflexivity.
  - apply (proj2 (proj2 (govbrds_message_alert_type_total
                           django_message_constants {| level := Some 35 |}))
             35).
    + reflexivity.
    + intros Hin. repeat (apply elem_of_cons in Hin as [[=]|Hin]).
      by apply not_elem_of_nil in Hin.
Defined.

(** With Django's constants, both [DEBUG] and [WARNING] are shown as
    [warning] and [ERROR] as [danger]. *)
Example alert_types_django :
  (λ l, govbrds_message_alert_type (H := django_message_constants)
          {| level := Some l |}) <$> [10; 20; 25; 30; 40]
  = ["warning"; "info"; "success"; "warning"; "danger"].
Proof. vm_compute. reflexivity. Qed.

Section TagFacts.
Variable render_link_tag : setting → string.
Variable render_script_tag : setting → string.
Variable css_class_list : list string → result (list string).

(** X6: the validation class of a widget is made of [is-valid] and
    [is-invalid] only, whatever the widget's class attribute holds and
    whatever the class list helper returns; a widget without [attrs], or
    whose [attrs] have no [class], gives the empty string; and no
    [KeyError] leaves the tag. *)
Theorem validation_class_only (widget : gmap string (gmap string string)) :
  let r := govbrds_server_side_validation_class css_class_list widget in
  (widget !! "attrs" = None → r = Ok EmptyString)
  ∧ (∀ attrs, widget !! "attrs" = Some attrs → attrs !! "class" = None →
       r = Ok EmptyString)
  ∧ (∀ s, r = Ok s →
       ∃ classes, s = String.concat " " classes
                  ∧ Forall (λ c, c = "is-valid" ∨ c = "is-invalid") classes)
  ∧ (∀ key, r ≠ Raise (KeyError key)).
Proof.
  intros r. subst r. unfold govbrds_server_side_validation_class, subscript.
  split; [|split; [|split]].
  - intros Hw. by rewrite Hw.
  - intros attrs Hw Ha. rewrite Hw. simpl. by rewrite Ha.
  - intros s.
    destruct (widget !! "attrs") as [attrs|]; simpl;
      [|intros [= <-]; by exists []].
    destruct (attrs !! "class") as [cls|]; simpl;
      [|intros [= <-]; by exists []].
    destruct (css_class_list [cls]) as [css|[]]; try done;
      [|intros [= <-]; by exists []].
    intros [= <-]. eexists. split; [reflexivity|].
    apply Forall_forall. intros c [Hc _]%list_elem_of_filter.
    rewrite !elem_of_cons in Hc. destruct Hc as [?|[?|Hc]]; auto.
    by apply not_elem_of_nil in Hc.
  - intros key.
    destruct (widget !! "attrs") as [attrs|]; simpl; [|done].
    destruct (attrs !! "class") as [cls|]; simpl; [|done].
    by destruct (css_class_list [cls]) as [css|[]].
Qed.

(** X7: a falsy value stored by the host switches a tag off, the
    library's default URL does not come back: [govbrds_css] is empty
    when the host's [css_url] is falsy and the theme URL is falsy too,
    and [govbrds_javascript] is empty when the host's [javascript_url]
    is falsy.  When the host sets no [theme_url] and the CSS URL is
    truthy, [govbrds_css] is the link tag of the CSS URL alone. *)
Theorem falsy_urls_render_nothing (settings : django_settings) :
  let host : gmap string setting := default ∅ (GOVBRDS settings) in
  (∀ c, host !! "css_url" = Some c → setting_truthy c = false →
     setting_truthy (theme_url settings) = false →
     govbrds_css render_link_tag settings = EmptyString)
  ∧ (∀ j, host !! "javascript_url" = Some j → setting_truthy j = false →
       govbrds_javascript render_script_tag settings = EmptyString)
  ∧ (host !! "theme_url" = None →
     setting_truthy (css_url settings) = true →
     govbrds_css render_link_tag settings
     = render_link_tag (css_url settings)).
Proof.
  intros host.
  assert (Hget : ∀ name v, host !! name = Some v →
            get_govbrds_setting settings name SNone = v).
  { intros name v Hv. unfold get_govbrds_setting. fold host. by rewrite Hv. }
  split; [|split].
  - intros c Hc Hfalsy Htheme. unfold govbrds_css, govbrds_css_url,
      govbrds_theme_url, css_url. rewrite (Hget _ _ Hc), Hfalsy, Htheme.
    reflexivity.
  - intros j Hj Hfalsy. unfold govbrds_javascript, govbrds_javascript_url,
      javascript_url. rewrite (Hget _ _ Hj), Hfalsy. reflexivity.
  - intros Htheme Hcss. unfold govbrds_css, govbrds_css_url,
      govbrds_theme_url. rewrite Hcss.
    assert (Hnone : theme_url settings = SNone).
    { unfold theme_url, get_govbrds_setting. fold host. rewrite Htheme.
      vm_compute. reflexivity. }
    rewrite Hnone. simpl. reflexivity.
Qed.

End TagFacts.

Lemma validation_class_only_witness :
  govbrds_server_side_validation_class (λ classes, Ok classes) ∅
  = Ok EmptyString
  ∧ ∃ classes,
      "is-invalid" = String.concat " " classes
      ∧ Forall (λ c, c = "is-valid" ∨ c = "is-invalid") classes.
Proof.
  split.
  - apply (proj1 (validation_class_only (λ classes, Ok classes) ∅)).
    reflexivity.
  - apply (proj1 (proj2 (proj2 (validation_class_only
             (λ classes, Ok (flat_map (RelativeUrls.split " "%char) classes))
             {[ "attrs" := {[ "class" := "form-control is-invalid" ]} ]})))).
    vm_compute. reflexivity.
Defined.

Lemma falsy_urls_render_nothing_witness :
  govbrds_css (λ _, "<link>")
    {| GOVBRDS := Some {[ "css_url" := SNone ]} |} = EmptyString
  ∧ govbrds_javascript (λ _, "<script></script>")
      {| GOVBRDS := Some {[ "javascript_url" := SStr EmptyString ]} |}
    = EmptyString
  ∧ govbrds_css (λ _, "<link>") {| GOVBRDS := None |} = "<link>".
Proof.
  split; [|split].
  - apply (proj1 (falsy_urls_render_nothing (λ _, "<link>")
                    (λ _, "<script></script>")
                    {| GOVBRDS := Some {[ "css_url" := SNone ]} |}) SNone);
      vm_compute; reflexivity.
  - apply (proj1 (proj2 (falsy_urls_render_nothing (λ _, "<link>")
                    (λ _, "<script></script>")
                    {| GOVBRDS :=
                         Some {[ "javascript_url" := SStr EmptyString ]} |}))
             (SStr EmptyString));
      vm_compute; reflexivity.
  - apply (proj2 (proj2 (falsy_urls_render_nothing (λ _, "<link>")
                    (λ _, "<script></script>") {| GOVBRDS := None |})));
      vm_compute; reflexivity.
Defined.



(** ** More on the window *)

(** The last page never passes the number of pages, and the forward
    target is absent exactly when the window ends on the last page:
    for all integers. *)
Lemma window_forward_absent (delta pages_to_show num_pages current_page : Z) :
  let w := pagination_window delta pages_to_show num_pages current_page in
  w_last_page w ≤ num_pages
  ∧ (w_pages_forward w = None ↔ w_last_page w = num_pages).
Proof.
  unfold pagination_window. simpl.
  repeat case_decide; simpl; (split; [lia|]); split; (done || lia).
Qed.

(** With both targets present the window holds [pages_to_show] pages
    from [current_page - delta_pages] on. *)
Lemma window_middle (delta pages_to_show num_pages current_page b f : Z) :
  let w := pagination_window delta pages_to_show num_pages current_page in
  w_pages_back w = Some b → w_pages_forward w = Some f →
  w_first_page w = current_page - delta
  ∧ w_last_page w = current_page - delta + pages_to_show - 1
  ∧ b = Z.max 1 (current_page - 2 * delta)
  ∧ f = Z.min (current_page - delta + pages_to_show - 1 + delta) num_pages.
Proof.
  simpl. unfold pagination_window. simpl.
  repeat case_decide; simpl; intros [=] [=]; lia.
Qed.

(** With [delta_pages] at least 1, the targets lie strictly outside
    the window. *)
Lemma window_targets_strict
    (delta pages_to_show num_pages current_page : Z) :
  1 ≤ delta →
  let w := pagination_window delta pages_to_show num_pages current_page in
  (∀ b, w_pages_back w = Some b → b < w_first_page w)
  ∧ (∀ f, w_pages_forward w = Some f → w_last_page w < f).
Proof.
  intros Hd. unfold pagination_window. simpl.
  repeat case_decide; simpl; split; intros ? [=]; lia.
Qed.

(** A window of one page in the middle of the pages: both targets are
    the current page. *)
Lemma window_single (num_pages current_page : Z) :
  1 < current_page < num_pages →
  pagination_window 0 1 num_pages current_page
  = {| w_first_page := current_page;
       w_last_page := current_page;
       w_pages_shown := [current_page];
       w_pages_back := Some current_page;
       w_pages_forward := Some current_page |}.
Proof.
  intros Hc.
  pose proof (window_pages_shown 0 1 num_pages current_page) as Hs.
  destruct (pagination_window 0 1 num_pages current_page) as [fp lp ps pb pf]
    eqn:Hw. simpl in Hs. subst ps.
  unfold pagination_window in Hw. simpl in Hw.
  assert (Hmax : 1 `max` (current_page - 0) = current_page) by lia.
  rewrite Hmax in Hw.
  repeat case_decide; simpl in Hw; try lia; injection Hw as <- <- _ <- <-.
  replace (current_page + 1 - 1) with current_page by lia.
  replace (current_page - current_page + 1) with 1 by lia.
  replace ((current_page + 0) `min` num_pages) with current_page by lia.
  replace (current_page - 0) with current_page by lia.
  replace (1 `max` current_page) with current_page by lia.
  rewrite seqZ_cons by lia. reflexivity.
Qed.

(** On the last page of a list of [n] pages with
    [delta + 2 < n <= 2 * delta + 1], the window starts after page 1
    and there is no back target. *)
Lemma window_no_way_back (delta pages_to_show num_pages : Z) :
  0 ≤ delta ≤ pages_to_show - 1 →
  delta + 2 < num_pages ≤ 2 * delta + 1 →
  let w := pagination_window delta pages_to_show num_pages num_pages in
  w_first_page w = num_pages - delta - 1
  ∧ 1 < w_first_page w
  ∧ w_last_page w = num_pages
  ∧ w_pages_back w = None
  ∧ w_pages_forward w = None.
Proof.
  intros Hd Hn. unfold pagination_window. simpl.
  repeat case_decide; simpl; try lia; repeat split; try lia; done.
Qed.

(** A list that fits: the current page within the first
    [delta_pages + 1] pages and at most [pages_to_show + 1] pages in
    all. *)
Lemma window_whole_list (delta pages_to_show num_pages current_page : Z) :
  1 ≤ pages_to_show →
  current_page ≤ delta + 1 →
  num_pages ≤ pages_to_show + 1 →
  pagination_window delta pages_to_show num_pages current_page
  = {| w_first_page := 1;
       w_last_page := num_pages;
       w_pages_shown := seqZ 1 num_pages;
       w_pages_back := None;
       w_pages_forward := None |}.
Proof.
  intros Hws Hc Hn.
  pose proof (window_pages_shown delta pages_to_show num_pages current_page)
    as Hs.
  destruct (pagination_window delta pages_to_show num_pages current_page)
    as [fp lp ps pb pf] eqn:Hw. simpl in Hs. subst ps.
  unfold pagination_window in Hw. simpl in Hw.
  repeat case_decide; simpl in Hw; try lia; injection Hw as <- <- _ <- <-;
    rewrite ?Z.max_l by lia; f_equal; f_equal; lia.
Qed.

Section WindowFacts.
Context `{UrlLib}.

(** The window of a returned context, read off the window of the
    page. *)
Lemma context_window_property (P : window → Prop) (page : Page)
    (pages_to_show delta : Z)
    (url size justify_content extra : option string) (pname : string) :
  1 ≤ pages_to_show →
  floor_half pages_to_show = Ok delta →
  returns (pagination_url url extra) →
  returns (pagination_classes size justify_content) →
  P (pagination_window delta pages_to_show (paginator_num_pages page)
       (number page)) →
  ∃ ctx,
    get_pagination_context page pages_to_show url size justify_content
      extra pname = Ok ctx
    ∧ P (context_window ctx).
Proof.
  intros Hws Hd Hu Hc HP.
  destruct (get_pagination_context_returns page pages_to_show delta url size
              justify_content extra pname Hws Hd Hu Hc) as (ctx & Hctx & Hw).
  exists ctx. split; [done|]. by rewrite Hw.
Qed.

(** X8: the last page of a returned context never passes the number of
    pages, and its forward target is absent exactly when the window
    ends on the last page, whatever the window size, the current page
    and the number of pages are. *)
Theorem forward_target_absent_iff (page : Page) (pages_to_show : Z)
    (url size justify_content extra : option string) (pname : string)
    (ctx : pagination_context) :
  get_pagination_context page pages_to_show url size justify_content
    extra pname = Ok ctx →
  last_page ctx ≤ paginator_num_pages page
  ∧ (pages_forward ctx = None ↔ last_page ctx = paginator_num_pages page).
Proof.
  intros (_ & _ & _ & delta & Hd & Hw)%get_pagination_context_Ok.
  pose proof (window_forward_absent delta pages_to_show
                (paginator_num_pages page) (number page)) as Hf.
  simpl in Hf. rewrite <- Hw in Hf. exact Hf.
Qed.

(** X9: for a window size from 1 to 2^53, when a returned context has
    both a back and a forward target, it shows exactly [pages_to_show]
    pages, from [current - floor(pages_to_show / 2)] on; the back
    target is [max(1, first - delta)] and the forward target
    [min(last + delta, num_pages)]. *)
Theorem window_between_targets (page : Page) (pages_to_show : Z)
    (url size justify_content extra : option string) (pname : string)
    (ctx : pagination_context) :
  1 ≤ pages_to_show ≤ 2 ^ 53 →
  get_pagination_context page pages_to_show url size justify_content
    extra pname = Ok ctx →
  let delta := pages_to_show `div` 2 in
  ∀ b f, pages_back ctx = Some b → pages_forward ctx = Some f →
    first_page ctx = number page - delta
    ∧ last_page ctx = first_page ctx + pages_to_show - 1
    ∧ Z.of_nat (length (pages_shown ctx)) = pages_to_show
    ∧ b = Z.max 1 (first_page ctx - delta)
    ∧ f = Z.min (last_page ctx + delta) (paginator_num_pages page).
Proof.
  intros Hws (_ & _ & _ & d & Hd & Hw)%get_pagination_context_Ok delta b f.
  rewrite floor_half_exact in Hd by done. injection Hd as <-. fold delta in Hw.
  change (pages_back ctx) with (w_pages_back (context_window ctx)).
  change (pages_forward ctx) with (w_pages_forward (context_window ctx)).
  change (first_page ctx) with (w_first_page (context_window ctx)).
  change (last_page ctx) with (w_last_page (context_window ctx)).
  change (pages_shown ctx) with (w_pages_shown (context_window ctx)).
  rewrite Hw. intros Hb Hf.
  destruct (window_middle delta pages_to_show (paginator_num_pages page)
              (number page) b f Hb Hf) as (Hfirst & Hlast & -> & ->).
  rewrite window_pages_shown, length_seqZ, Hfirst, Hlast.
  repeat split; lia.
Qed.

(** X10: from a window size of 2 on, the back target of a returned
    context lies strictly before its first shown page and the forward
    target strictly after the last: a jump never lands on a page that
    is shown. *)
Theorem targets_outside_window (page : Page) (pages_to_show : Z)
    (url size justify_content extra : option string) (pname : string)
    (ctx : pagination_context) :
  2 ≤ pages_to_show →
  get_pagination_context page pages_to_show url size justify_content
    extra pname = Ok ctx →
  (∀ b, pages_back ctx = Some b → b < first_page ctx ∧ b ∉ pages_shown ctx)
  ∧ (∀ f, pages_forward ctx = Some f →
       last_page ctx < f ∧ f ∉ pages_shown ctx).
Proof.
  intros Hws (_ & _ & _ & delta & Hd & Hw)%get_pagination_context_Ok.
  destruct (floor_half_bounds pages_to_show delta ltac:(lia) Hd)
    as [_ Hdelta].
  destruct (window_targets_strict delta pages_to_show
              (paginator_num_pages page) (number page) ltac:(lia))
    as [Hb Hf].
  pose proof (window_pages_shown delta pages_to_show
                (paginator_num_pages page) (number page)) as Hs.
  simpl in Hs. rewrite <- Hw in Hb, Hf, Hs. simpl in Hb, Hf, Hs.
  rewrite Hs. split.
  - intros b Hback. specialize (Hb b Hback). split; [done|].
    rewrite elem_of_seqZ. lia.
  - intros f Hfwd. specialize (Hf f Hfwd). split; [done|].
    rewrite elem_of_seqZ. lia.
Qed.

(** X11: with a window size of 1 and the current page strictly between
    the first and the last page, the context shows the current page
    alone and both targets are the current page itself. *)
Theorem single_page_window (total current : Z)
    (url size justify_content extra : option string) (pname : string) :
  1 < current < total →
  returns (pagination_url url extra) →
  returns (pagination_classes size justify_content) →
  ∃ ctx,
    get_pagination_context
      {| paginator_num_pages := total; number := current |}
      1 url size justify_content extra pname = Ok ctx
    ∧ pages_shown ctx = [current]
    ∧ pages_back ctx = Some current
    ∧ pages_forward ctx = Some current.
Proof.
  intros Hcur Hu Hc.
  apply (context_window_property
           (λ w, w_pages_shown w = [current]
                 ∧ w_pages_back w = Some current
                 ∧ w_pages_forward w = Some current)
           {| paginator_num_pages := total; number := current |} 1 0);
    [lia | reflexivity | done..|].
  simpl. by rewrite window_single.
Qed.

(** X12: for a window size from 1 to 2^53, on the last page of [n]
    pages with [delta + 2 < n <= 2 * delta + 1] for
    [delta = floor(pages_to_show / 2)], the window starts at page
    [n - delta - 1], after page 1, and the context has neither a back
    nor a forward target: the pages before the window are not shown
    and no target leads to them. *)
Theorem last_page_without_back_target (pages_to_show total : Z)
    (url size justify_content extra : option string) (pname : string) :
  1 ≤ pages_to_show ≤ 2 ^ 53 →
  pages_to_show `div` 2 + 2 < total ≤ 2 * (pages_to_show `div` 2) + 1 →
  returns (pagination_url url extra) →
  returns (pagination_classes size justify_content) →
  ∃ ctx,
    get_pagination_context
      {| paginator_num_pages := total; number := total |}
      pages_to_show url size justify_content extra pname = Ok ctx
    ∧ first_page ctx = total - pages_to_show `div` 2 - 1
    ∧ 1 < first_page ctx
    ∧ last_page ctx = total
    ∧ pages_back ctx = None
    ∧ pages_forward ctx = None
    ∧ 1 ∉ pages_shown ctx.
Proof.
  intros Hws Hn Hu Hc.
  apply (context_window_property
           (λ w, w_first_page w = total - pages_to_show `div` 2 - 1
                 ∧ 1 < w_first_page w
                 ∧ w_last_page w = total
                 ∧ w_pages_back w = None
                 ∧ w_pages_forward w = None
                 ∧ 1 ∉ w_pages_shown w)
           {| paginator_num_pages := total; number := total |}
           pages_to_show (pages_to_show `div` 2));
    [lia | by apply floor_half_exact | done..|].
  simpl.
  destruct (window_no_way_back (pages_to_show `div` 2) pages_to_show total
              (div2_bounds pages_to_show ltac:(lia)) Hn)
    as (Hfirst & Hgt & Hlast & Hback & Hfwd).
  repeat (split; [done|]).
  rewrite window_pages_shown, elem_of_seqZ. lia.
Qed.

(** X13: for a window size from 1 to 2^53, when the current page is
    among the first [delta + 1] pages and there are at most
    [pages_to_show + 1] pages, the context shows all of them, 1 to
    [num_pages], without any target. *)
Theorem whole_list_shown (pages_to_show total current : Z)
    (url size justify_content extra : option string) (pname : string) :
  1 ≤ pages_to_show ≤ 2 ^ 53 →
  current ≤ pages_to_show `div` 2 + 1 →
  total ≤ pages_to_show + 1 →
  returns (pagination_url url extra) →
  returns (pagination_classes size justify_content) →
  ∃ ctx,
    get_pagination_context
      {| paginator_num_pages := total; number := current |}
      pages_to_show url size justify_content extra pname = Ok ctx
    ∧ first_page ctx = 1
    ∧ last_page ctx = total
    ∧ pages_shown ctx = seqZ 1 total
    ∧ pages_back ctx = None
    ∧ pages_forward ctx = None.
Proof.
  intros Hws Hcur Hn Hu Hc.
  apply (context_window_property
           (λ w, w_first_page w = 1
                 ∧ w_last_page w = total
                 ∧ w_pages_shown w = seqZ 1 total
                 ∧ w_pages_back w = None
                 ∧ w_pages_forward w = None)
           {| paginator_num_pages := total; number := current |}
           pages_to_show (pages_to_show `div` 2));
    [lia | by apply floor_half_exact | done..|].
  simpl. rewrite window_whole_list by (done || lia). done.
Qed.

(** ** The order of the checks *)

(** X14: for a window size from 1 to below 2^1024 and with a URL that
    parses, every call with a non-empty [size] raises [NameError]: the
    name [get_size_class] is bound nowhere in the module.  This comes
    before the check of [justify_content]. *)
Theorem size_option_raises (page : Page) (pages_to_show : Z)
    (url size justify_content extra : option string) (pname : string) :
  1 ≤ pages_to_show < 2 ^ 1024 →
  returns (pagination_url url extra) →
  truthy size = true →
  get_pagination_context page pages_to_show url size justify_content
    extra pname = Raise (NameError "get_size_class").
Proof.
  intros Hws [u Hu] Hsize. unfold get_pagination_context.
  case_decide; [lia|].
  destruct (floor_half_returns pages_to_show Hws) as [delta ->]. simpl.
  rewrite Hu. simpl.
  unfold pagination_classes. destruct size as [sz|]; [|done].
  rewrite Hsize. reflexivity.
Qed.

(** X15: the steps fail in the order of the source: a window size
    below 1 raises the [ValueError] on [pages_to_show]; from 1 on, an
    [OverflowError] of [pages_to_show / 2] leaves the call before the
    URL is parsed; and when the quotient fits, an exception of
    [urlparse] leaves the call before [size] and [justify_content] are
    looked at. *)
Theorem failures_in_source_order (page : Page) (pages_to_show : Z)
    (url size justify_content extra : option string) (pname : string) :
  (pages_to_show < 1 →
   get_pagination_context page pages_to_show url size justify_content
     extra pname = Raise (ValueError (pages_to_show_message pages_to_show)))
  ∧ (∀ e, 1 ≤ pages_to_show → floor_half pages_to_show = Raise e →
       get_pagination_context page pages_to_show url size justify_content
         extra pname
       = Raise (OverflowError "integer division result too large for a float"))
  ∧ (∀ e, 1 ≤ pages_to_show → returns (floor_half pages_to_show) →
       urlparse (or_empty url) = Raise e →
       get_pagination_context page pages_to_show url size justify_content
         extra pname = Raise e).
Proof.
  unfold get_pagination_context. split; [|split].
  - intros Hws. by case_decide.
  - intros e Hws Hd. case_decide; [lia|]. rewrite Hd. simpl.
    by apply floor_half_raises in Hd as ->.
  - intros e Hws [delta Hd] Hparse. case_decide; [lia|]. rewrite Hd. simpl.
    unfold pagination_url. rewrite Hparse. reflexivity.
Qed.

(** X16: the CSS classes of a returned context are [pagination], alone
    or followed by one of the three justification classes; a context is
    returned only for an absent or empty [size]. *)
Theorem returned_css_classes (page : Page) (pages_to_show : Z)
    (url size justify_content extra : option string) (pname : string)
    (ctx : pagination_context) :
  get_pagination_context page pages_to_show url size justify_content
    extra pname = Ok ctx →
  truthy size = false
  ∧ pagination_css_classes ctx
    ∈ ["pagination"; "pagination justify-content-start";
       "pagination justify-content-center"; "pagination justify-content-end"].
Proof.
  intros (_ & _ & (cls & Hcls & ->) & _)%get_pagination_context_Ok.
  destruct (truthy size) eqn:Hsize.
  - unfold pagination_classes in Hcls. destruct size as [sz|]; [|done].
    rewrite Hsize in Hcls. done.
  - split; [done|]. rewrite pagination_classes_no_size in Hcls by done.
    destruct justify_content as [jc|]; [|injection Hcls as <-; set_solver].
    destruct (truthy (Some jc)); [|injection Hcls as <-; set_solver].
    case_decide as Hin; [|done]. injection Hcls as <-.
    rewrite !elem_of_cons in Hin.
    destruct Hin as [->|[->|[->|Hin]]]; [set_solver..|].
    by apply not_elem_of_nil in Hin.
Qed.

(** X17: among the merged query parameters the names that [parse_qs]
    reads from the URL's query (the names with a non-blank value) come
    first, in the order of the URL, and the names it reads from [extra]
    that are not among them follow, in the order of [extra]; a name
    read from both takes the place it has in the URL. *)
Theorem merged_params_key_order (base_query : string)
    (extra : option string) :
  let base := parse_qs base_query in
  let to_merge :=
    if truthy extra then parse_qs (default EmptyString extra) else [] in
  dict_keys (merged_params base_query extra)
  = dict_keys base ++ filter (λ k, k ∉ dict_keys base) (dict_keys to_merge).
Proof. apply merged_params_keys. Qed.

End WindowFacts.

Example merged_params_order_ex :
  dict_keys (merged_params (H := RelativeUrls.relative_urllib)
               "sort=name&page=1&q=x" (Some "lang=pt&page=3&per=20"))
  = ["sort"; "page"; "q"; "lang"; "per"].
Proof. vm_compute. reflexivity. Qed.

(** A name with a blank value is not read from the URL: given by
    [extra], it goes last. *)
Example merged_params_blank_ex :
  pagination_url (H := RelativeUrls.relative_urllib)
    (Some "/l?x=&y=1") (Some "x=5")
  = Ok "/l?y=1&x=5".
Proof. vm_compute. reflexivity. Qed.

(** ** Witnesses *)

Lemma forward_target_absent_iff_witness :
  ∃ ctx,
    get_pagination_context (H := RelativeUrls.relative_urllib)
      {| paginator_num_pages := 100; number := 97 |}
      11 None None None None "page" = Ok ctx
    ∧ last_page ctx ≤ 100
    ∧ (pages_forward ctx = None ↔ last_page ctx = 100).
Proof.
  eexists. split; [vm_compute; reflexivity|].
  apply (forward_target_absent_iff (H := RelativeUrls.relative_urllib)
           {| paginator_num_pages := 100; number := 97 |}
           11 None None None None "page").
  vm_compute. reflexivity.
Defined.

Lemma window_between_targets_witness :
  ∃ ctx,
    get_pagination_context (H := RelativeUrls.relative_urllib)
      {| paginator_num_pages := 100; number := 50 |}
      10 None None None None "page" = Ok ctx
    ∧ ∀ b f, pages_back ctx = Some b → pages_forward ctx = Some f →
        first_page ctx = 50 - 10 `div` 2
        ∧ last_page ctx = first_page ctx + 10 - 1
        ∧ Z.of_nat (length (pages_shown ctx)) = 10
        ∧ b = Z.max 1 (first_page ctx - 10 `div` 2)
        ∧ f = Z.min (last_page ctx + 10 `div` 2) 100.
Proof.
  eexists. split; [vm_compute; reflexivity|].
  apply (window_between_targets (H := RelativeUrls.relative_urllib)
           {| paginator_num_pages := 100; number := 50 |}
           10 None None None None "page");
    [lia | vm_compute; reflexivity].
Defined.

Lemma targets_outside_window_witness :
  ∃ ctx,
    get_pagination_context (H := RelativeUrls.relative_urllib)
      {| paginator_num_pages := 100; number := 50 |}
      2 None None None None "page" = Ok ctx
    ∧ (∀ b, pages_back ctx = Some b → b < first_page ctx ∧ b ∉ pages_shown ctx)
    ∧ (∀ f, pages_forward ctx = Some f →
         last_page ctx < f ∧ f ∉ pages_shown ctx).
Proof.
  eexists. split; [vm_compute; reflexivity|].
  apply (targets_outside_window (H := RelativeUrls.relative_urllib)
           {| paginator_num_pages := 100; number := 50 |}
           2 None None None None "page");
    [lia | vm_compute; reflexivity].
Defined.

Lemma single_page_window_witness :
  ∃ ctx,
    get_pagination_context (H := RelativeUrls.relative_urllib)
      {| paginator_num_pages := 9; number := 4 |}
      1 None None None None "page" = Ok ctx
    ∧ pages_shown ctx = [4]
    ∧ pages_back ctx = Some 4
    ∧ pages_forward ctx = Some 4.
Proof.
  apply (single_page_window (H := RelativeUrls.relative_urllib) 9 4);
    try lia; vm_compute; eexists; reflexivity.
Defined.

Lemma last_page_without_back_target_witness :
  ∃ ctx,
    get_pagination_context (H := RelativeUrls.relative_urllib)
      {| paginator_num_pages := 11; number := 11 |}
      11 None None None None "page" = Ok ctx
    ∧ first_page ctx = 11 - 11 `div` 2 - 1
    ∧ 1 < first_page ctx
    ∧ last_page ctx = 11
    ∧ pages_back ctx = None
    ∧ pages_forward ctx = None
    ∧ 1 ∉ pages_shown ctx.
Proof.
  apply (last_page_without_back_target
           (H := RelativeUrls.relative_urllib) 11 11);
    try (vm_compute; eexists; reflexivity); [lia|].
  change (11 `div` 2) with 5. lia.
Defined.

Lemma whole_list_shown_witness :
  ∃ ctx,
    get_pagination_context (H := RelativeUrls.relative_urllib)
      {| paginator_num_pages := 5; number := 1 |}
      11 None None None None "page" = Ok ctx
    ∧ first_page ctx = 1
    ∧ last_page ctx = 5
    ∧ pages_shown ctx = seqZ 1 5
    ∧ pages_back ctx = None
    ∧ pages_forward ctx = None.
Proof.
  apply (whole_list_shown (H := RelativeUrls.relative_urllib) 11 5 1);
    try (vm_compute; eexists; reflexivity); try lia.
  change (11 `div` 2) with 5. lia.
Defined.

(** The example of the tag's own documentation, with [size="large"]. *)
Lemma size_option_raises_witness :
  get_pagination_context (H := RelativeUrls.relative_urllib)
    {| paginator_num_pages := 100; number := 1 |}
    11 (Some "/pagination?page=1") (Some "large") None None "page"
  = Raise (NameError "get_size_class").
Proof.
  apply (size_option_raises (H := RelativeUrls.relative_urllib));
    [lia | vm_compute; eexists; reflexivity | reflexivity].
Defined.

Lemma returned_css_classes_witness :
  truthy None = false
  ∧ "pagination justify-content-end"
    ∈ ["pagination"; "pagination justify-content-start";
       "pagination justify-content-center"; "pagination justify-content-end"].
Proof.
  apply (returned_css_classes (H := RelativeUrls.relative_urllib)
           {| paginator_num_pages := 5; number := 1 |}
           11 None None (Some "end") None "page"
           {| govbrds_pagination_url := EmptyString;
              num_pages := 5;
              current_page := 1;
              first_page := 1;
              last_page := 5;
              pages_shown := [1; 2; 3; 4; 5];
              pages_back := None;
              pages_forward := None;
              pagination_css_classes := "pagination justify-content-end";
              parameter_name := "page" |}).
  vm_compute. reflexivity.
Defined.

(** A library that refuses an unmatched bracket: with a window size
    whose half does not fit a float the [OverflowError] comes first,
    with a window size of 11 the library's error does, also with a
    [size] and an unknown [justify_content]. *)
Lemma failures_in_source_order_witness :
  get_pagination_context
    (H := {| urlparse := λ u,
               if String.eqb u "//[" then Raise (ValueError "Invalid IPv6 URL")
               else RelativeUrls.urlparse_rel u;
             urlunparse := RelativeUrls.urlunparse_rel;
             parse_qsl := RelativeUrls.parse_qsl_rel;
             quote_plus := RelativeUrls.quote_plus_rel |})
    {| paginator_num_pages := 5; number := 1 |}
    (2 ^ 1025) (Some "//[") (Some "large") (Some "middle") None "page"
  = Raise (OverflowError "integer division result too large for a float")
  ∧ get_pagination_context
      (H := {| urlparse := λ u,
                 if String.eqb u "//["
                 then Raise (ValueError "Invalid IPv6 URL")
                 else RelativeUrls.urlparse_rel u;
               urlunparse := RelativeUrls.urlunparse_rel;
               parse_qsl := RelativeUrls.parse_qsl_rel;
               quote_plus := RelativeUrls.quote_plus_rel |})
      {| paginator_num_pages := 5; number := 1 |}
      11 (Some "//[") (Some "large") (Some "middle") None "page"
    = Raise (ValueError "Invalid IPv6 URL").
Proof.
  split.
  - destruct (failures_in_source_order
                (H := {| urlparse := λ u,
                           if String.eqb u "//["
                           then Raise (ValueError "Invalid IPv6 URL")
                           else RelativeUrls.urlparse_rel u;
                         urlunparse := RelativeUrls.urlunparse_rel;
                         parse_qsl := RelativeUrls.parse_qsl_rel;
                         quote_plus := RelativeUrls.quote_plus_rel |})
                {| paginator_num_pages := 5; number := 1 |}
                (2 ^ 1025) (Some "//[") (Some "large") (Some "middle") None
                "page") as (_ & Hover & _).
    apply (Hover (OverflowError
                    "integer division result too large for a float")).
    + lia.
    + vm_compute. reflexivity.
  - destruct (failures_in_source_order
                (H := {| urlparse := λ u,
                           if String.eqb u "//["
                           then Raise (ValueError "Invalid IPv6 URL")
                           else RelativeUrls.urlparse_rel u;
                         urlunparse := RelativeUrls.urlunparse_rel;
                         parse_qsl := RelativeUrls.parse_qsl_rel;
                         quote_plus := RelativeUrls.quote_plus_rel |})
                {| paginator_num_pages := 5; number := 1 |}
                11 (Some "//[") (Some "large") (Some "middle") None "page")
      as (_ & _ & Hurl).
    apply (Hurl (ValueError "Invalid IPv6 URL")).
    + lia.
    + vm_compute. eexists. reflexivity.
    + vm_compute. reflexivity.
Defined.
